(** * WhatsApp task assigner: the reminder scheduling core of [app.py]

    A shallow embedding of the scheduling, dispatch and CRUD functions of
    [src/app.py], and the properties of them that the specification states.

    Conventions of the embedding.
    - Python [int] is [Z]; Python [str] is [string], one [ascii] per character.
    - A [datetime] is an instant counted in microseconds (the resolution of
      Python's [datetime]) together with the flag "has a tzinfo".  Adding a
      [timedelta] adds microseconds; the zone is a fixed-offset one, as the
      default [Asia/Kolkata] is, and the year range of [datetime] is not
      bounded here.
    - The functions of [app.py] run in a state-and-exception monad over a
      [World]: the committed database, the scheduler's job store, the wall
      clock and a chronological trace of the effects performed.
    - APScheduler, requests, phonenumbers and [str.format] are libraries the
      program calls.  [Module APScheduler] writes out the part of
      APScheduler 3.x that [app.py] relies on (the interval trigger and the
      job store operations); the HTTP transport, the phone number library and
      the date formatter are fields of the record [Env]. *)

From Stdlib Require Import ZArith String Ascii List Bool Lia.
From stdpp Require Import gmap strings list pretty.

Local Open Scope string_scope.
Local Open Scope list_scope.
Local Open Scope Z_scope.

(** ** Python values *)

(** An exception object: [type(e).__name__] and [str(e)]. *)
Record exn := Exn { exn_type : string; exn_msg : string }.

(** Outcome of a Python call: a returned value or a raised exception. *)
Inductive Result (A : Type) : Type :=
| Return (a : A)
| Raise (e : exn).
Arguments Return {A} a.
Arguments Raise {A} e.

(** [a or b] on strings: the empty string is falsy. *)
Definition py_or (a b : string) : string :=
  if decide (a = EmptyString) then b else a.

(** [datetime]: an instant in microseconds, and whether [tzinfo] is set. *)
Record datetime := Datetime { instant : Z; tzaware : bool }.

Definition usec_per_second : Z := 1000000.
Definition usec_per_day : Z := 86400 * usec_per_second.

(** [timedelta(days=d)] in microseconds. *)
Definition timedelta_days (d : Z) : Z := d * usec_per_day.

(** [dt.replace(tzinfo=tzinfo)]: same wall clock, zone attached. *)
Definition replace_tzinfo (dt : datetime) : datetime :=
  {| instant := instant dt; tzaware := true |}.

(** [dt + delta]. *)
Definition datetime_add (dt : datetime) (delta : Z) : datetime :=
  {| instant := instant dt + delta; tzaware := tzaware dt |}.

(** ** The part of APScheduler 3.x that [app.py] uses *)

Module APScheduler.

(** [apscheduler.triggers.interval.IntervalTrigger]: [interval] in
    microseconds, [start_date], optional [end_date]. *)
Record IntervalTrigger := {
  interval : Z;
  start_date : Z;
  end_date : option Z
}.

(** [IntervalTrigger.__init__(days=d, start_date=s, end_date=e)]: a zero
    interval becomes one second. *)
Definition make_trigger (days : Z) (s : Z) (e : option Z) : IntervalTrigger :=
  let iv := timedelta_days days in
  {| interval := if iv =? 0 then usec_per_second else iv;
     start_date := s;
     end_date := e |}.

(** [int(ceil(a / b))] for [b > 0]. *)
Definition ceil_div (a b : Z) : Z := - ((- a) / b).

(** [IntervalTrigger.get_next_fire_time(previous_fire_time, now)]:
<<
    if previous_fire_time:
        next_fire_time = previous_fire_time + self.interval
    elif self.start_date > now:
        next_fire_time = self.start_date
    else:
        timediff_seconds = timedelta_seconds(now - self.start_date)
        next_interval_num = int(ceil(timediff_seconds / self.interval_length))
        next_fire_time = self.start_date + self.interval * next_interval_num
    if not self.end_date or next_fire_time <= self.end_date:
        return normalize(next_fire_time)
>>
    The last test is [<=]: [end_date] is the latest instant the trigger may
    fire on.  [None] is the library's "no more fire times". *)
Definition get_next_fire_time (tr : IntervalTrigger)
    (previous_fire_time : option Z) (now : Z) : option Z :=
  let next_fire_time :=
    match previous_fire_time with
    | Some p => p + interval tr
    | None =>
        if now <? start_date tr then start_date tr
        else start_date tr + interval tr * ceil_div (now - start_date tr) (interval tr)
    end in
  match end_date tr with
  | None => Some next_fire_time
  | Some e => if next_fire_time <=? e then Some next_fire_time else None
  end.

(** A stored job: the keyword arguments of [add_job] that [app.py] passes,
    and [next_run_time]. *)
Record Job := {
  job_id : string;
  job_args : list Z;
  trigger : IntervalTrigger;
  coalesce : bool;
  misfire_grace_time : Z;
  max_instances : Z;
  next_run_time : option Z
}.

(** The job store: the rows of its table. *)
Abbreviation JobStore := (list Job).

Definition has_id (jid : string) (j : Job) : bool :=
  bool_decide (job_id j = jid).

(** [jobstore.lookup_job(jid)]. *)
Definition lookup_job (jid : string) (js : JobStore) : option Job :=
  find (has_id jid) js.

(** Rows left by [DELETE ... WHERE id = jid]. *)
Definition delete_rows (jid : string) (js : JobStore) : JobStore :=
  filter (fun j => job_id j <> jid) js.

(** Rows after [UPDATE ... WHERE id = job.id]. *)
Definition update_rows (j : Job) (js : JobStore) : JobStore :=
  map (fun j' => if has_id (job_id j) j' then j else j') js.

(** Number of live jobs stored under [jid]. *)
Definition count_jobs (jid : string) (js : JobStore) : nat :=
  length (filter (fun j => job_id j = jid) js).

(** [scheduler.remove_job(jid)]: [JobLookupError] when no job has that id. *)
Definition remove_job (jid : string) (js : JobStore) : Result unit * JobStore :=
  match lookup_job jid js with
  | None => (Raise (Exn "JobLookupError" ("No job by the id of " +:+ jid +:+ " was found")), js)
  | Some _ => (Return tt, delete_rows jid js)
  end.

(** [scheduler._real_add_job(job, jobstore, replace_existing)] on a running
    scheduler: [next_run_time] is computed from the trigger at [now]; an
    insert that meets an existing id is [ConflictingIdError], turned into
    an update when [replace_existing] is set. *)
Definition add_job (now : Z) (jid : string) (args : list Z) (tr : IntervalTrigger)
    (coal : bool) (grace maxi : Z) (replace_existing : bool)
    (js : JobStore) : Result unit * JobStore :=
  let job := {| job_id := jid; job_args := args; trigger := tr;
                coalesce := coal; misfire_grace_time := grace;
                max_instances := maxi;
                next_run_time := get_next_fire_time tr None now |} in
  match lookup_job jid js with
  | None => (Return tt, js ++ [job])
  | Some _ =>
      if replace_existing then (Return tt, update_rows job js)
      else (Raise (Exn "ConflictingIdError"
                     ("Job identifier (" +:+ jid +:+ ") conflicts with an existing job")), js)
  end.

(** The instants at which the engine finds the job due.  The first is the
    stored [next_run_time]; after a run at [p] the engine stores
    [trigger.get_next_fire_time(p, now)] and drops the job when that is
    [None].  With a previous fire time the interval trigger does not read
    [now]. *)
Inductive fires (j : Job) : Z -> Prop :=
| fires_first t : next_run_time j = Some t -> fires j t
| fires_next p t now :
    fires j p -> get_next_fire_time (trigger j) (Some p) now = Some t -> fires j t.

(** The same instants as a list, for at most [fuel] runs. *)
Fixpoint run_times (tr : IntervalTrigger) (fuel : nat) (next : option Z) : list Z :=
  match fuel, next with
  | S n, Some t => t :: run_times tr n (get_next_fire_time tr (Some t) t)
  | _, _ => []
  end.

Definition fire_list (j : Job) (fuel : nat) : list Z :=
  run_times (trigger j) fuel (next_run_time j).

End APScheduler.

(** ** Tables of the database

    The columns [created_at] and [updated_at] are server-side timestamps that
    no function below reads; they are left out of the rows. *)

Module Contact.
Record t := {
  id : Z;
  name : string;
  phone_raw : string;
  phone_e164 : string;
  chat_id : string;
  tags : string;
  note : string
}.
End Contact.

Module Task.
Record t := {
  id : Z;
  title : string;
  description : string;
  status : string;
  priority : string;
  due_at : option datetime;
  assignee_id : Z;
  start_at : datetime;
  freq_days : Z;
  remind_for_days : Z
}.

(** [t.status = new_status]. *)
Definition set_status (s : string) (x : t) : t :=
  {| id := id x; title := title x; description := description x;
     status := s; priority := priority x; due_at := due_at x;
     assignee_id := assignee_id x; start_at := start_at x;
     freq_days := freq_days x; remind_for_days := remind_for_days x |}.
End Task.

Module TaskComment.
Record t := {
  id : Z;
  task_id : Z;
  author : string;
  body : string
}.
End TaskComment.

(** The committed content of the SQL database.  [tasks] and [settings] are
    read by primary key only; [contacts] and [task_comments] keep their rows
    as lists. *)
Record Database := {
  tasks : gmap Z Task.t;
  contacts : list Contact.t;
  task_comments : list TaskComment.t;
  settings : gmap string string
}.

(** Effects, in the order the program performs them. *)
Inductive Event :=
| EvSetStatus (task_id : Z) (new_status : string)
| EvAddComment (task_id : Z) (author body : string)
| EvDeleteComments (task_id : Z)
| EvDeleteTask (task_id : Z)
| EvCommit
| EvRemoveJob (jid : string)
| EvAddJob (jid : string)
| EvPost (chat_id text : string).

Record World := {
  db : Database;
  jobs : APScheduler.JobStore;
  clock : Z;
  trace : list Event
}.

(** ** The monad of [app.py]: state and exceptions *)

Definition M (A : Type) : Type := World -> Result A * World.

Definition ret {A} (a : A) : M A := fun w => (Return a, w).

Definition raise {A} (e : exn) : M A := fun w => (Raise e, w).

Definition bind {A B} (m : M A) (k : A -> M B) : M B :=
  fun w =>
    match m w with
    | (Return a, w') => k a w'
    | (Raise e, w') => (Raise e, w')
    end.

Declare Scope py_scope.
Delimit Scope py_scope with py.
Notation "x <- m ;; k" := (bind m (fun x => k))
  (at level 100, m at next level, right associativity) : py_scope.
Notation "m ;; k" := (bind m (fun _ => k))
  (at level 100, right associativity) : py_scope.
Local Open Scope py_scope.

(** [try: m  except Exception as e: h e]. *)
Definition try_except {A} (m : M A) (h : exn -> M A) : M A :=
  fun w =>
    match m w with
    | (Return a, w') => (Return a, w')
    | (Raise e, w') => h e w'
    end.

(** [try: m  finally: f]. *)
Definition try_finally {A} (m : M A) (f : M unit) : M A :=
  fun w =>
    match m w with
    | (r, w') =>
        match f w' with
        | (Return _, w'') => (r, w'')
        | (Raise e, w'') => (Raise e, w'')
        end
    end.

Definition emit (e : Event) : M unit :=
  fun w => (Return tt,
            {| db := db w; jobs := jobs w; clock := clock w; trace := trace w ++ [e] |}).

(** [s = SessionLocal()]: the session works on its own view of the database
    until [commit]. *)
Definition SessionLocal : M Database := fun w => (Return (db w), w).

(** [s.commit()]. *)
Definition commit (s : Database) : M unit :=
  fun w => (Return tt,
            {| db := s; jobs := jobs w; clock := clock w; trace := trace w ++ [EvCommit] |}).

(** [s.close()]: what was not committed is dropped with the session. *)
Definition close : M unit := ret tt.

(** Run a job store operation of the library on the scheduler's store. *)
Definition on_jobs {A} (op : APScheduler.JobStore -> Result A * APScheduler.JobStore) : M A :=
  fun w =>
    let (r, js) := op (jobs w) in
    (r, {| db := db w; jobs := js; clock := clock w; trace := trace w |}).

Definition now : M Z := fun w => (Return (clock w), w).

(** [scheduler.remove_job(jid)]. *)
Definition scheduler_remove_job (jid : string) : M unit :=
  emit (EvRemoveJob jid) ;;
  on_jobs (APScheduler.remove_job jid).

(** [scheduler.add_job(func, "interval", days=.., start_date=.., end_date=..,
    args=.., id=.., coalesce=.., misfire_grace_time=.., replace_existing=..,
    max_instances=..)]. *)
Definition scheduler_add_job (days : Z) (start_date end_date : datetime)
    (args : list Z) (jid : string) (coalesce : bool) (misfire_grace_time : Z)
    (replace_existing : bool) (max_instances : Z) : M unit :=
  emit (EvAddJob jid) ;;
  t <- now ;;
  on_jobs (APScheduler.add_job t jid args
             (APScheduler.make_trigger days (instant start_date) (Some (instant end_date)))
             coalesce misfire_grace_time max_instances replace_existing).

(** Final state and result of running [m] from [w]. *)
Definition exec {A} (m : M A) (w : World) : World := snd (m w).
Definition result {A} (m : M A) (w : World) : Result A := fst (m w).

(** ** Libraries behind the program *)

(** [requests.Response], as far as [api_send_text] reads it.  [json] is
    [str(r.json())], or [None] when [r.json()] raises. *)
Record Response := {
  status_code : Z;
  reason : string;
  url : string;
  response_text : string;
  json : option string
}.

(** A parsed [phonenumbers.PhoneNumber]: its validity and its E.164 form. *)
Record PhoneNumber := {
  is_valid_number : bool;
  format_e164 : string
}.

(** Configuration read from the environment, and the library calls whose
    results the program only passes on.  [requests_post n u c t s] is the
    outcome of the [n]-th POST of the run, to [u], with payload
    [{"chatId": c, "text": t, "session": s}].  [str_format] is Python's
    [str.format] on templates that use more than plain [{name}] fields. *)
Record Env := {
  API_BASE : string;
  API_SEND : string;
  API_SESSION : string;
  requests_post : nat -> string -> string -> string -> string -> Result Response;
  phonenumbers_parse : string -> string -> Result PhoneNumber;
  strftime : datetime -> string;
  repr : string -> string;
  str_format : string -> list (string * string) -> Result string
}.

(** ** Helpers of [app.py] *)

(** [job_id_for_task]: [f"task-{task_id}"]. *)
Definition job_id_for_task (task_id : Z) : string :=
  "task-" +:+ pretty task_id.

(** [c.isdigit()] on a character below 256: the ASCII digits and the
    superscripts two, three and one. *)
Definition isdigit (c : ascii) : bool :=
  let n := nat_of_ascii c in
  ((48 <=? n) && (n <=? 57) || (n =? 178) || (n =? 179) || (n =? 185))%nat.

Fixpoint keep_digits (s : string) : string :=
  match s with
  | EmptyString => EmptyString
  | String c r => if isdigit c then String c (keep_digits r) else keep_digits r
  end.

(** [chat_id_from_e164]. *)
Definition chat_id_from_e164 (e164 : string) : string :=
  keep_digits e164 +:+ "@c.us".

Definition dquote : string := String (ascii_of_nat 34) EmptyString.

Definition DEFAULT_TEMPLATE : string :=
  "Hi {assignee_name}, what's the update on the task " +:+ dquote +:+ "{title}"
  +:+ dquote +:+ "? (Due: {due_date})".

(** [status in ("completed", "cancelled")]. *)
Definition closed (status : string) : bool :=
  bool_decide (status = "completed") || bool_decide (status = "cancelled").

(** *** [str.format] with keyword arguments only *)

Definition lookup_kw (kw : list (string * string)) (k : string) : option string :=
  snd <$> find (fun p => bool_decide (fst p = k)) kw.

(** Characters that start nested, converted, formatted, attribute or index
    syntax inside a replacement field. *)
Definition is_markup (c : ascii) : bool :=
  bool_decide (c ∈ ["{"; "!"; ":"; "."; "["]%char).

Fixpoint all_digits (s : string) : bool :=
  match s with
  | EmptyString => true
  | String c r => (Nat.leb 48 (nat_of_ascii c) && Nat.leb (nat_of_ascii c) 57) && all_digits r
  end.

Definition single (c : ascii) : string := String c EmptyString.

(** The scan of [str.format]: [field] is [None] in literal text and the
    field name read so far inside braces.  A doubled brace is a literal
    brace; a plain name is looked up among the keyword arguments and raises
    [KeyError] when absent; an empty name is positional index 0, out of range
    as there are no positional arguments.  [full] is the answer of the
    complete formatter, used when a field leaves this fragment. *)
Fixpoint format_go (rp : string -> string) (full : Result string)
    (kw : list (string * string)) (tpl : string) (field : option string)
    (out : string) : Result string :=
  match tpl with
  | EmptyString =>
      match field with
      | None => Return out
      | Some _ => Raise (Exn "ValueError" "expected '}' before end of string")
      end
  | String c rest =>
      match field with
      | None =>
          if decide (c = "{"%char) then
            match rest with
            | EmptyString => Raise (Exn "ValueError" "Single '{' encountered in format string")
            | String c' rest' =>
                if decide (c' = "{"%char) then format_go rp full kw rest' None (out +:+ "{")
                else format_go rp full kw rest (Some EmptyString) out
            end
          else if decide (c = "}"%char) then
            match rest with
            | EmptyString => Raise (Exn "ValueError" "Single '}' encountered in format string")
            | String c' rest' =>
                if decide (c' = "}"%char) then format_go rp full kw rest' None (out +:+ "}")
                else Raise (Exn "ValueError" "Single '}' encountered in format string")
            end
          else format_go rp full kw rest None (out +:+ single c)
      | Some name =>
          if decide (c = "}"%char) then
            if decide (name = EmptyString) then
              Raise (Exn "IndexError" "Replacement index 0 out of range for positional args tuple")
            else if all_digits name then full
            else
              match lookup_kw kw name with
              | Some v => format_go rp full kw rest None (out +:+ v)
              | None => Raise (Exn "KeyError" (rp name))
              end
          else if is_markup c then full
          else format_go rp full kw rest (Some (name +:+ single c)) out
      end
  end.

(** Updates of one table of a session's view. *)
Definition with_tasks (s : Database) (ts : gmap Z Task.t) : Database :=
  {| tasks := ts; contacts := contacts s;
     task_comments := task_comments s; settings := settings s |}.

Definition with_contacts (s : Database) (cs : list Contact.t) : Database :=
  {| tasks := tasks s; contacts := cs;
     task_comments := task_comments s; settings := settings s |}.

Definition with_task_comments (s : Database) (cs : list TaskComment.t) : Database :=
  {| tasks := tasks s; contacts := contacts s;
     task_comments := cs; settings := settings s |}.

(** The key an [INTEGER PRIMARY KEY] column gives to a new row: one more than
    the largest key in use. *)
Definition next_id (ids : list Z) : Z := 1 + foldr Z.max 0 ids.

(** [Query.one_or_none()]. *)
Definition one_or_none {A} (rows : list A) : Result (option A) :=
  match rows with
  | [] => Return None
  | [r] => Return (Some r)
  | _ => Raise (Exn "MultipleResultsFound"
                  "Multiple rows were found when one or none was required")
  end.

(** A pure outcome as a computation. *)
Definition lift {A} (r : Result A) : M A := fun w => (r, w).

(** The POSTs recorded in a trace. *)
Definition posts (tr : list Event) : list (string * string) :=
  omap (fun e => match e with EvPost c t => Some (c, t) | _ => None end) tr.

(** What [api_send_text] returns: the parsed JSON body, or the dictionary
    [{'ok': True, 'raw': r.text}]. *)
Inductive ApiReply :=
| JsonBody (j : string)
| RawBody (raw : string).

Section App.

Variable env : Env.

(** [str(resp)]. *)
Definition str_reply (r : ApiReply) : string :=
  match r with
  | JsonBody j => j
  | RawBody raw => "{'ok': True, 'raw': " +:+ repr env raw +:+ "}"
  end.

(** [to_e164]. *)
Definition to_e164 (raw region : string) : option string :=
  match phonenumbers_parse env raw region with
  | Return num => if is_valid_number num then Some (format_e164 num) else None
  | Raise _ => None
  end.

(** [Response.raise_for_status()]. *)
Definition raise_for_status (r : Response) : Result unit :=
  if (400 <=? status_code r) && (status_code r <? 500) then
    Raise (Exn "HTTPError" (pretty (status_code r) +:+ " Client Error: " +:+ reason r
                            +:+ " for url: " +:+ url r))
  else if (500 <=? status_code r) && (status_code r <? 600) then
    Raise (Exn "HTTPError" (pretty (status_code r) +:+ " Server Error: " +:+ reason r
                            +:+ " for url: " +:+ url r))
  else Return tt.

(** [api_send_text]. *)
Definition api_send_text (chat_id text : string) : M ApiReply :=
  fun w =>
    let n := length (posts (trace w)) in
    match emit (EvPost chat_id text) w with
    | (_, w') =>
        match requests_post env n (API_BASE env +:+ API_SEND env) chat_id text (API_SESSION env) with
        | Raise e => (Raise e, w')
        | Return r =>
            match raise_for_status r with
            | Raise e => (Raise e, w')
            | Return _ =>
                match json r with
                | Some j => (Return (JsonBody j), w')
                | None => (Return (RawBody (response_text r)), w')
                end
            end
        end
    end.

(** [get_setting]. *)
Definition get_setting (key default : string) : M string :=
  try_finally
    (s <- SessionLocal ;;
     ret (match settings s !! key with Some v => v | None => default end))
    close.

(** [template.format(assignee_name=.., title=.., ...)]. *)
Definition format (template : string) (kw : list (string * string)) : Result string :=
  format_go (repr env) (str_format env template kw) kw template None EmptyString.

(** [render_message]; [contact] is [None] when the task's assignee row is
    missing, and [contact.name] then raises. *)
Definition render_message (task : Task.t) (contact : option Contact.t) : M string :=
  template <- get_setting "message_template" DEFAULT_TEMPLATE ;;
  let due_str :=
    match Task.due_at task with
    | Some d => strftime env d
    | None => "N/A"
    end in
  match contact with
  | None => raise (Exn "AttributeError" "'NoneType' object has no attribute 'name'")
  | Some c =>
      lift (format template
              [("assignee_name", Contact.name c);
               ("title", Task.title task);
               ("description", substring 0 500 (py_or (Task.description task) EmptyString));
               ("due_date", due_str);
               ("priority", Task.priority task);
               ("status", Task.status task)])
  end.

(** [_send_task_ping].  The first block either returns early ([inl]) or
    leaves the recipient and the message ([inr]). *)
Definition _send_task_ping (task_id : Z) : M (bool * string) :=
  r <- try_finally
         (s <- SessionLocal ;;
          match tasks s !! task_id with
          | None => ret (inl (false, "Task not found"))
          | Some t =>
              if closed (Task.status t) then
                try_except (scheduler_remove_job (job_id_for_task task_id))
                           (fun _ => ret tt) ;;
                ret (inl (false, "Task is " +:+ Task.status t +:+ "; not sending"))
              else
                let assignee :=
                  find (fun c => bool_decide (Contact.id c = Task.assignee_id t)) (contacts s) in
                msg <- render_message t assignee ;;
                match assignee with
                | None => raise (Exn "AttributeError"
                                   "'NoneType' object has no attribute 'chat_id'")
                | Some c => ret (inr (Contact.chat_id c, msg))
                end
          end)
         close ;;
  match r with
  | inl early => ret early
  | inr (chat_id, msg) =>
      try_except
        (resp <- api_send_text chat_id msg ;; ret (true, str_reply resp))
        (fun e => ret (false, exn_type e +:+ ": " +:+ exn_msg e))
  end.

(** [schedule_task]. *)
Definition schedule_task (task : Task.t) : M unit :=
  let jid := job_id_for_task (Task.id task) in
  let start := Task.start_at task in
  let start := if tzaware start then start else replace_tzinfo start in
  let end_ := datetime_add start (timedelta_days (Z.max 0 (Task.remind_for_days task))) in
  try_except (scheduler_remove_job jid) (fun _ => ret tt) ;;
  scheduler_add_job (Z.max 1 (Task.freq_days task)) start end_
                    [Task.id task] jid true 900 true 1.

(** [cancel_task_schedule]. *)
Definition cancel_task_schedule (task_id : Z) : M unit :=
  try_except (scheduler_remove_job (job_id_for_task task_id)) (fun _ => ret tt).

(** [upsert_contact]. *)
Definition upsert_contact (name phone tags note region : string) : M Contact.t :=
  match to_e164 phone region with
  | None => raise (Exn "ValueError" "Invalid phone number")
  | Some e164 =>
      if decide (e164 = EmptyString) then raise (Exn "ValueError" "Invalid phone number")
      else
        let chat_id := chat_id_from_e164 e164 in
        try_finally
          (s <- SessionLocal ;;
           c <- lift (one_or_none (filter (fun c => Contact.chat_id c = chat_id) (contacts s))) ;;
           match c with
           | Some c =>
               let c' :=
                 {| Contact.id := Contact.id c;
                    Contact.name := py_or name (Contact.name c);
                    Contact.phone_raw := phone;
                    Contact.phone_e164 := e164;
                    Contact.chat_id := Contact.chat_id c;
                    Contact.tags := py_or tags (Contact.tags c);
                    Contact.note := py_or note (Contact.note c) |} in
               commit (with_contacts s
                         (map (fun r => if bool_decide (Contact.id r = Contact.id c) then c' else r)
                              (contacts s))) ;;
               ret c'
           | None =>
               let c' :=
                 {| Contact.id := next_id (map Contact.id (contacts s));
                    Contact.name := name;
                    Contact.phone_raw := phone;
                    Contact.phone_e164 := e164;
                    Contact.chat_id := chat_id;
                    Contact.tags := py_or tags EmptyString;
                    Contact.note := py_or note EmptyString |} in
               commit (with_contacts s (contacts s ++ [c'])) ;;
               ret c'
           end)
          close
  end.

(** [update_task_status]. *)
Definition update_task_status (task_id : Z) (new_status : string) : M bool :=
  try_finally
    (s <- SessionLocal ;;
     match tasks s !! task_id with
     | None => ret false
     | Some t =>
         let t := Task.set_status new_status t in
         emit (EvSetStatus task_id new_status) ;;
         let s := with_tasks s (<[task_id := t]> (tasks s)) in
         let body := "Status changed to " +:+ new_status in
         emit (EvAddComment task_id "system" body) ;;
         let s := with_task_comments s
                    (task_comments s ++
                     [{| TaskComment.id := next_id (map TaskComment.id (task_comments s));
                         TaskComment.task_id := task_id;
                         TaskComment.author := "system";
                         TaskComment.body := body |}]) in
         commit s ;;
         (if closed new_status then cancel_task_schedule task_id else schedule_task t) ;;
         ret true
     end)
    close.

(** [delete_task]. *)
Definition delete_task (task_id : Z) : M bool :=
  cancel_task_schedule task_id ;;
  try_finally
    (s <- SessionLocal ;;
     match tasks s !! task_id with
     | None => ret false
     | Some t =>
         emit (EvDeleteComments task_id) ;;
         let s := with_task_comments s
                    (filter (fun c => TaskComment.task_id c <> task_id) (task_comments s)) in
         emit (EvDeleteTask task_id) ;;
         let s := with_tasks s (delete task_id (tasks s)) in
         commit s ;;
         ret true
     end)
    close.

(** [send_now]. *)
Definition send_now (task_id : Z) : M (bool * string) :=
  r <- _send_task_ping task_id ;;
  ret r.

End App.

(** ** Further functions of [app.py]

    The database is the default SQLite file: a [DateTime] column keeps the
    wall clock and drops the zone, and foreign keys are not enforced. *)

(** [c.isspace()] for a character below 256. *)
Definition isspace (c : ascii) : bool :=
  let n := nat_of_ascii c in
  ((9 <=? n) && (n <=? 13) || (28 <=? n) && (n <=? 32) || (n =? 133) || (n =? 160))%nat.

(** [s.lstrip()], [s.rstrip()] and [s.strip()]. *)
Fixpoint lstrip (s : string) : string :=
  match s with
  | EmptyString => EmptyString
  | String c r => if isspace c then lstrip r else s
  end.

Fixpoint rstrip (s : string) : string :=
  match s with
  | EmptyString => EmptyString
  | String c r =>
      match rstrip r with
      | EmptyString => if isspace c then EmptyString else String c EmptyString
      | String c' r' => String c (String c' r')
      end
  end.

Definition strip (s : string) : string := rstrip (lstrip s).

Definition with_settings (s : Database) (m : gmap string string) : Database :=
  {| tasks := tasks s; contacts := contacts s;
     task_comments := task_comments s; settings := m |}.

(** [set_setting]. *)
Definition set_setting (key value : string) : M unit :=
  try_finally
    (s <- SessionLocal ;;
     match settings s !! key with
     | Some _ => commit (with_settings s (<[key := value]> (settings s)))
     | None => commit (with_settings s (<[key := value]> (settings s)))
     end)
    close.

(** [add_comment]. *)
Definition add_comment (task_id : Z) (author body : string) : M unit :=
  try_finally
    (s <- SessionLocal ;;
     emit (EvAddComment task_id (py_or author "admin") (strip body)) ;;
     commit (with_task_comments s
               (task_comments s ++
                [{| TaskComment.id := next_id (map TaskComment.id (task_comments s));
                    TaskComment.task_id := task_id;
                    TaskComment.author := py_or author "admin";
                    TaskComment.body := strip body |}])))
    close.

(** [datetime.combine(date, time)]: [date] in days, [time] in microseconds
    after midnight. *)
Definition combine (date time : Z) : datetime :=
  {| instant := date * usec_per_day + time; tzaware := false |}.

(** [dtime(18, 0)]. *)
Definition six_pm : Z := 18 * 3600 * usec_per_second.

(** A [datetime] read back from its column. *)
Definition stored_datetime (dt : datetime) : datetime :=
  {| instant := instant dt; tzaware := false |}.

(** The row of a task as [s.refresh(t)] reads it back. *)
Definition stored_task (t : Task.t) : Task.t :=
  {| Task.id := Task.id t; Task.title := Task.title t;
     Task.description := Task.description t; Task.status := Task.status t;
     Task.priority := Task.priority t;
     Task.due_at := stored_datetime <$> Task.due_at t;
     Task.assignee_id := Task.assignee_id t;
     Task.start_at := stored_datetime (Task.start_at t);
     Task.freq_days := Task.freq_days t;
     Task.remind_for_days := Task.remind_for_days t |}.

(** [create_task]; [due_date] is [None] when the form gives no date. *)
Definition create_task (title description : string) (assignee_id : Z)
    (priority : string) (due_date : option Z) (start_date start_time : Z)
    (freq_days remind_for_days : Z) : M Task.t :=
  let start_dt := replace_tzinfo (combine start_date start_time) in
  let due_dt :=
    match due_date with
    | Some d => Some (replace_tzinfo (combine d six_pm))
    | None => None
    end in
  try_finally
    (s <- SessionLocal ;;
     let t :=
       stored_task
         {| Task.id := next_id (map fst (map_to_list (tasks s)));
            Task.title := strip title; Task.description := strip description;
            Task.status := "open"; Task.priority := priority; Task.due_at := due_dt;
            Task.assignee_id := assignee_id; Task.start_at := start_dt;
            Task.freq_days := freq_days; Task.remind_for_days := remind_for_days |} in
     commit (with_tasks s (<[Task.id t := t]> (tasks s))) ;;
     schedule_task t ;;
     ret t)
    close.

(** Characters of a template that are plain text, and characters that may
    stand in a plain field name. *)
Definition is_brace (c : ascii) : bool :=
  bool_decide (c = "{"%char) || bool_decide (c = "}"%char).

Fixpoint no_braces (s : string) : bool :=
  match s with
  | EmptyString => true
  | String c r => negb (is_brace c) && no_braces r
  end.

Fixpoint plain_name_chars (s : string) : bool :=
  match s with
  | EmptyString => true
  | String c r => negb (is_markup c) && negb (bool_decide (c = "}"%char)) && plain_name_chars r
  end.

(** A field name that [str.format] looks up among the keyword arguments. *)
Definition plain_name (s : string) : bool :=
  negb (bool_decide (s = EmptyString)) && negb (all_digits s) && plain_name_chars s.

(** The keyword arguments [render_message] passes to [str.format]. *)
Definition render_kwargs (env : Env) (task : Task.t) (c : Contact.t) : list (string * string) :=
  [("assignee_name", Contact.name c);
   ("title", Task.title task);
   ("description", substring 0 500 (py_or (Task.description task) EmptyString));
   ("due_date", match Task.due_at task with Some d => strftime env d | None => "N/A" end);
   ("priority", Task.priority task);
   ("status", Task.status task)].

(** ** Definitions used to state the properties *)

(** The job [schedule_task] hands to the scheduler for [task] at time [t]. *)
Definition scheduled_job (task : Task.t) (t : Z) : APScheduler.Job :=
  let start := instant (Task.start_at task) in
  let tr := APScheduler.make_trigger (Z.max 1 (Task.freq_days task)) start
              (Some (start + timedelta_days (Z.max 0 (Task.remind_for_days task)))) in
  {| APScheduler.job_id := job_id_for_task (Task.id task);
     APScheduler.job_args := [Task.id task];
     APScheduler.trigger := tr;
     APScheduler.coalesce := true;
     APScheduler.misfire_grace_time := 900;
     APScheduler.max_instances := 1;
     APScheduler.next_run_time := APScheduler.get_next_fire_time tr None t |}.

(** [schedule_task] called for each task of a list, in order. *)
Fixpoint schedule_all (ts : list Task.t) : M unit :=
  match ts with
  | [] => ret tt
  | t :: r => schedule_task t ;; schedule_all r
  end.

(** The job store holds at most one job under every id. *)
Definition unique_ids (js : APScheduler.JobStore) : Prop :=
  forall jid, (APScheduler.count_jobs jid js <= 1)%nat.

(** The [contacts] table satisfies its primary key and [uq_chatid]. *)
Definition contacts_ok (cs : list Contact.t) : Prop :=
  NoDup (map Contact.id cs) /\ NoDup (map Contact.chat_id cs).

(** Index of the first multiple of [iv] from [s] that is not before [now]. *)
Definition first_index (iv s now : Z) : Z :=
  if now <? s then 0 else APScheduler.ceil_div (now - s) iv.

(** ** Sample data *)

Module Sample.

(** 2024-01-01T09:00 IST, in microseconds since the epoch. *)
Definition jan1_0900 : Z := 1704079800000000.

Definition alice : Contact.t :=
  {| Contact.id := 1; Contact.name := "Alice"; Contact.phone_raw := "98765 43210";
     Contact.phone_e164 := "+919876543210"; Contact.chat_id := "919876543210@c.us";
     Contact.tags := "team"; Contact.note := "lead" |}.

(** Task 7, assigned to Alice, first reminder on 2024-01-01T09:00 IST. *)
Definition task (status : string) (freq_days remind_for_days : Z) : Task.t :=
  {| Task.id := 7; Task.title := "Quarterly report"; Task.description := "Send the draft";
     Task.status := status; Task.priority := "medium"; Task.due_at := None;
     Task.assignee_id := 1; Task.start_at := Datetime jan1_0900 true;
     Task.freq_days := freq_days; Task.remind_for_days := remind_for_days |}.

(** A world that holds task [t], Alice, one comment on task 7 and one on
    task 8, the given settings and jobs, five minutes before 09:00. *)
Definition world (t : Task.t) (sett : gmap string string)
    (js : APScheduler.JobStore) : World :=
  {| db := {| tasks := {[ Task.id t := t ]};
              contacts := [alice];
              task_comments :=
                [ {| TaskComment.id := 1; TaskComment.task_id := 7;
                     TaskComment.author := "admin"; TaskComment.body := "started" |};
                  {| TaskComment.id := 2; TaskComment.task_id := 8;
                     TaskComment.author := "admin"; TaskComment.body := "other" |} ];
              settings := sett |};
     jobs := js;
     clock := jan1_0900 - 300 * usec_per_second;
     trace := [] |}.

(** Two stale jobs with the id of task 7 and one job of task 8. *)
Definition stale_jobs : APScheduler.JobStore :=
  [ scheduled_job (task "open" 2 9) 0;
    scheduled_job
      {| Task.id := 8; Task.title := "Other"; Task.description := EmptyString;
         Task.status := "open"; Task.priority := "low"; Task.due_at := None;
         Task.assignee_id := 1; Task.start_at := Datetime jan1_0900 false;
         Task.freq_days := 1; Task.remind_for_days := 5 |} 0;
    scheduled_job (task "open" 5 20) 0 ].

(** An environment whose transport answers 200 with a JSON body, and one
    whose transport times out. *)
Definition env_with (post : Result Response) : Env :=
  {| API_BASE := "http://localhost:3000";
     API_SEND := "/api/sendText";
     API_SESSION := "default";
     requests_post := fun _ _ _ _ _ => post;
     phonenumbers_parse := fun raw _ =>
       if decide (raw = "98765 43210")
       then Return {| is_valid_number := true; format_e164 := "+919876543210" |}
       else Raise (Exn "NumberParseException" "The string supplied did not seem to be a phone number.");
     strftime := fun _ => "01-Jan-2024 06:00 PM";
     repr := fun s => "'" +:+ s +:+ "'";
     str_format := fun _ _ => Raise (Exn "ValueError" "Invalid format specifier") |}.

Definition env_up : Env :=
  env_with (Return {| status_code := 200; reason := "OK";
                      url := "http://localhost:3000/api/sendText";
                      response_text := "{}"; json := Some "{'sent': True}" |}).

Definition env_down : Env :=
  env_with (Raise (Exn "ConnectTimeout" "connection to localhost timed out")).

(** An environment whose transport answers 503. *)
Definition env_busy : Env :=
  env_with (Return {| status_code := 503; reason := "Service Unavailable";
                      url := "http://localhost:3000/api/sendText";
                      response_text := "busy"; json := None |}).

(** An environment whose transport answers 304, with an empty body. *)
Definition env_not_modified : Env :=
  env_with (Return {| status_code := 304; reason := "Not Modified";
                      url := "http://localhost:3000/api/sendText";
                      response_text := EmptyString; json := None |}).

End Sample.

(** * Properties *)

(** ** The job store *)

Section JobStoreFacts.
Import APScheduler.

Lemma lookup_job_None jid js :
  lookup_job jid js = None <-> Forall (fun j => job_id j <> jid) js.
Proof.
  unfold lookup_job, has_id. induction js as [|j js IH]; simpl.
  - split; [constructor | reflexivity].
  - case_bool_decide as Hj.
    + split; [discriminate | inversion 1; contradiction].
    + rewrite IH. split; [by constructor | by inversion 1].
Qed.

Lemma delete_rows_absent jid js :
  lookup_job jid js = None -> delete_rows jid js = js.
Proof.
  rewrite lookup_job_None. unfold delete_rows.
  induction 1 as [|j js Hj _ IH]; [reflexivity|].
  rewrite filter_cons_True by done. by rewrite IH.
Qed.

Lemma lookup_delete_rows jid js : lookup_job jid (delete_rows jid js) = None.
Proof.
  apply lookup_job_None, Forall_forall. intros j Hj.
  unfold delete_rows in Hj. apply list_elem_of_filter in Hj. tauto.
Qed.

Lemma count_jobs_app jid js1 js2 :
  count_jobs jid (js1 ++ js2) = (count_jobs jid js1 + count_jobs jid js2)%nat.
Proof. unfold count_jobs. by rewrite filter_app, length_app. Qed.

Lemma count_delete_rows_eq jid js : count_jobs jid (delete_rows jid js) = 0%nat.
Proof.
  unfold count_jobs, delete_rows. induction js as [|j js IH]; [reflexivity|].
  destruct (decide (job_id j = jid)) as [Hj|Hj].
  - by rewrite filter_cons_False by tauto.
  - rewrite filter_cons_True by done. by rewrite filter_cons_False by done.
Qed.

Lemma count_delete_rows_ne jid jid' js :
  jid' <> jid -> count_jobs jid' (delete_rows jid js) = count_jobs jid' js.
Proof.
  intros Hne. unfold count_jobs, delete_rows. induction js as [|j js IH]; [reflexivity|].
  destruct (decide (job_id j = jid)) as [Hj|Hj].
  - rewrite filter_cons_False by tauto.
    rewrite (filter_cons_False (fun j => job_id j = jid')) by congruence. done.
  - rewrite filter_cons_True by done.
    destruct (decide (job_id j = jid')) as [Hj'|Hj'].
    + rewrite !filter_cons_True by done. simpl. by rewrite IH.
    + by rewrite !filter_cons_False by done.
Qed.

Lemma lookup_job_app_new jid js j :
  lookup_job jid js = None -> job_id j = jid -> lookup_job jid (js ++ [j]) = Some j.
Proof.
  rewrite lookup_job_None. unfold lookup_job, has_id. intros Hjs Hj.
  induction Hjs as [|j' js Hj' _ IH]; simpl.
  - by rewrite bool_decide_eq_true_2.
  - by rewrite bool_decide_eq_false_2.
Qed.

End JobStoreFacts.

(** ** The interval trigger *)

Section TriggerFacts.
Import APScheduler.

Lemma usec_per_day_pos : 0 < usec_per_day.
Proof. reflexivity. Qed.

Lemma ceil_div_0 b : ceil_div 0 b = 0.
Proof. unfold ceil_div. simpl. by rewrite Zdiv_0_l. Qed.

(** The fire instants of a job whose first run is at [t0]: the multiples of
    the interval from [t0] on that do not pass [end_date]. *)
Lemma fires_iff (j : Job) t0 e t :
  0 < interval (trigger j) -> end_date (trigger j) = Some e ->
  next_run_time j = Some t0 -> t0 <= e ->
  fires j t <-> exists k, 0 <= k /\ t = t0 + k * interval (trigger j) /\ t <= e.
Proof.
  intros Hiv He Hn Ht0. split.
  - induction 1 as [t Ht | p t now _ IH Hnext].
    + exists 0. rewrite Hn in Ht. injection Ht as <-. lia.
    + destruct IH as (k & Hk & -> & Hle).
      unfold get_next_fire_time in Hnext. rewrite He in Hnext.
      destruct (Z.leb_spec (t0 + k * interval (trigger j) + interval (trigger j)) e);
        [|discriminate].
      injection Hnext as <-. exists (k + 1). lia.
  - intros (k & Hk & -> & Hle). revert Hle. pattern k.
    apply natlike_ind; [ | | exact Hk].
    + intros _. apply fires_first. rewrite Hn. f_equal. lia.
    + intros n Hn0 IH Hle. apply (fires_next j (t0 + n * interval (trigger j)) _ 0).
      * apply IH. nia.
      * unfold get_next_fire_time. rewrite He.
        replace (t0 + n * interval (trigger j) + interval (trigger j))
          with (t0 + Z.succ n * interval (trigger j)) by lia.
        by rewrite (proj2 (Z.leb_le _ _) Hle).
Qed.

(** A job stored without [next_run_time] never fires. *)
Lemma fires_paused (j : Job) t : next_run_time j = None -> ~ fires j t.
Proof.
  intros Hn Hf. induction Hf as [t Ht | p t now _ IH _]; [congruence | exact IH].
Qed.

(** The list of run times lists fire instants only. *)
Lemma run_times_fires (j : Job) fuel next t :
  (forall t', next = Some t' -> fires j t') ->
  In t (run_times (trigger j) fuel next) -> fires j t.
Proof.
  revert next. induction fuel as [|n IH]; intros next Hnext; simpl; [tauto|].
  destruct next as [t'|]; simpl; [|tauto].
  intros [<- | Hin]; [by apply Hnext|].
  apply (IH _ (fun t'' H => fires_next j t' t'' t' (Hnext _ eq_refl) H) Hin).
Qed.

End TriggerFacts.

(** ** [schedule_task] and [cancel_task_schedule] *)

(** Unfold the monad and the scheduler calls down to the library's job store
    operations. *)
Ltac unfold_m :=
  cbv beta delta [bind ret raise lift try_except try_finally emit on_jobs now
                  SessionLocal commit close scheduler_remove_job scheduler_add_job
                  APScheduler.remove_job APScheduler.add_job].

Lemma start_instant (dt : datetime) :
  instant (if tzaware dt then dt else replace_tzinfo dt) = instant dt.
Proof. by destruct (tzaware dt). Qed.

Lemma schedule_task_run task w :
  schedule_task task w =
  (Return tt,
   {| db := db w;
      jobs := APScheduler.delete_rows (job_id_for_task (Task.id task)) (jobs w)
              ++ [scheduled_job task (clock w)];
      clock := clock w;
      trace := trace w ++ [EvRemoveJob (job_id_for_task (Task.id task));
                           EvAddJob (job_id_for_task (Task.id task))] |}).
Proof.
  unfold schedule_task, scheduled_job. unfold_m. cbn [jobs db clock trace].
  destruct (APScheduler.lookup_job (job_id_for_task (Task.id task)) (jobs w)) eqn:Hl;
    cbn [jobs db clock trace datetime_add instant]; rewrite start_instant.
  - rewrite lookup_delete_rows. by rewrite <- app_assoc.
  - rewrite Hl, (delete_rows_absent _ _ Hl). by rewrite <- app_assoc.
Qed.

Lemma cancel_task_schedule_run task_id w :
  cancel_task_schedule task_id w =
  (Return tt,
   {| db := db w;
      jobs := APScheduler.delete_rows (job_id_for_task task_id) (jobs w);
      clock := clock w;
      trace := trace w ++ [EvRemoveJob (job_id_for_task task_id)] |}).
Proof.
  unfold cancel_task_schedule. unfold_m. cbn [jobs db clock trace].
  destruct (APScheduler.lookup_job (job_id_for_task task_id) (jobs w)) eqn:Hl;
    cbn [jobs db clock trace]; [reflexivity|].
  by rewrite (delete_rows_absent _ _ Hl).
Qed.

(** ** Fire instants of a scheduled task *)

Section FireInstants.
Import APScheduler.

Lemma ceil_div_spec a b :
  0 < b -> (ceil_div a b - 1) * b < a <= ceil_div a b * b.
Proof.
  intros Hb. unfold ceil_div.
  pose proof (Z.div_mod (- a) b) as Hdm.
  pose proof (Z.mod_pos_bound (- a) b Hb) as Hr.
  nia.
Qed.

Lemma first_index_spec iv s now :
  0 < iv ->
  0 <= first_index iv s now /\
  now <= s + first_index iv s now * iv /\
  forall k, 0 <= k -> now <= s + k * iv -> first_index iv s now <= k.
Proof.
  intros Hiv. unfold first_index. destruct (Z.ltb_spec now s) as [Hlt|Hge].
  - repeat split; [lia | lia | intros; lia].
  - pose proof (ceil_div_spec (now - s) iv Hiv) as [Hlo Hhi].
    repeat split; [nia | lia | intros k Hk Hle; nia].
Qed.

Lemma scheduled_job_trigger task now :
  trigger (scheduled_job task now) =
  {| interval := Z.max 1 (Task.freq_days task) * usec_per_day;
     start_date := instant (Task.start_at task);
     end_date := Some (instant (Task.start_at task)
                       + Z.max 0 (Task.remind_for_days task) * usec_per_day) |}.
Proof.
  unfold scheduled_job. cbn [trigger]. unfold make_trigger. f_equal.
  unfold timedelta_days. pose proof usec_per_day_pos.
  destruct (Z.eqb_spec (Z.max 1 (Task.freq_days task) * usec_per_day) 0); [nia|reflexivity].
Qed.

Lemma scheduled_job_next_run task now :
  let s := instant (Task.start_at task) in
  let iv := Z.max 1 (Task.freq_days task) * usec_per_day in
  let e := s + Z.max 0 (Task.remind_for_days task) * usec_per_day in
  next_run_time (scheduled_job task now) =
  if s + first_index iv s now * iv <=? e then Some (s + first_index iv s now * iv) else None.
Proof.
  intros s iv e.
  change (next_run_time (scheduled_job task now))
    with (get_next_fire_time (trigger (scheduled_job task now)) None now).
  rewrite scheduled_job_trigger. unfold get_next_fire_time, first_index.
  cbn [interval start_date end_date]. fold s iv e.
  destruct (now <? s); [by rewrite Z.mul_0_l, Z.add_0_r|].
  by rewrite (Z.mul_comm iv).
Qed.

(** The fire instants of the job that [schedule_task] stores at time [now]:
    the instants [start_at + k * max(1, freq_days)] days that are neither
    before [now] nor after [start_at + max(0, remind_for_days)] days. *)
Lemma scheduled_job_fires task now t :
  let s := instant (Task.start_at task) in
  let iv := Z.max 1 (Task.freq_days task) * usec_per_day in
  let e := s + Z.max 0 (Task.remind_for_days task) * usec_per_day in
  fires (scheduled_job task now) t <->
  exists k, 0 <= k /\ t = s + k * iv /\ now <= t /\ t <= e.
Proof.
  intros s iv e.
  assert (Hiv : 0 < iv) by (unfold iv; pose proof usec_per_day_pos; nia).
  destruct (first_index_spec iv s now Hiv) as (Hc0 & Hcn & Hcmin).
  pose proof (scheduled_job_next_run task now) as Hnext. cbv zeta in Hnext. fold s iv e in Hnext.
  pose proof (scheduled_job_trigger task now) as Htr. fold s iv e in Htr.
  destruct (Z.leb_spec (s + first_index iv s now * iv) e) as [Hle|Hgt].
  - rewrite (fires_iff (scheduled_job task now) (s + first_index iv s now * iv) e t); [ | by rewrite Htr | by rewrite Htr | exact Hnext | exact Hle].
    rewrite Htr. cbn [interval]. split.
    + intros (k & Hk & -> & Hte). exists (first_index iv s now + k). nia.
    + intros (k & Hk & -> & Hnow & Hte). exists (k - first_index iv s now).
      specialize (Hcmin k Hk Hnow). nia.
  - split.
    + intros Hf. by apply fires_paused in Hf.
    + intros (k & Hk & -> & Hnow & Hte). specialize (Hcmin k Hk Hnow). nia.
Qed.

End FireInstants.

(** ** The job left by [schedule_task] *)

Lemma schedule_task_result task w : result (schedule_task task) w = Return tt.
Proof. unfold result. by rewrite schedule_task_run. Qed.

Lemma schedule_task_clock task w : clock (exec (schedule_task task) w) = clock w.
Proof. unfold exec. by rewrite schedule_task_run. Qed.

Lemma schedule_task_lookup task w :
  APScheduler.lookup_job (job_id_for_task (Task.id task))
    (jobs (exec (schedule_task task) w)) = Some (scheduled_job task (clock w)).
Proof.
  unfold exec. rewrite schedule_task_run. cbn [snd jobs].
  apply lookup_job_app_new; [apply lookup_delete_rows | reflexivity].
Qed.

Lemma count_jobs_single jid (j : APScheduler.Job) :
  APScheduler.count_jobs jid [j] = if decide (APScheduler.job_id j = jid) then 1%nat else 0%nat.
Proof.
  unfold APScheduler.count_jobs. destruct (decide (APScheduler.job_id j = jid)).
  - by rewrite filter_cons_True.
  - by rewrite filter_cons_False.
Qed.

Lemma schedule_task_count task w :
  APScheduler.count_jobs (job_id_for_task (Task.id task))
    (jobs (exec (schedule_task task) w)) = 1%nat.
Proof.
  unfold exec. rewrite schedule_task_run. cbn [snd jobs].
  rewrite count_jobs_app, count_delete_rows_eq, count_jobs_single.
  by rewrite decide_True.
Qed.

Lemma schedule_task_count_other task w jid :
  jid <> job_id_for_task (Task.id task) ->
  APScheduler.count_jobs jid (jobs (exec (schedule_task task) w))
  = APScheduler.count_jobs jid (jobs w).
Proof.
  intros Hne. unfold exec. rewrite schedule_task_run. cbn [snd jobs].
  rewrite count_jobs_app, count_delete_rows_ne, count_jobs_single by done.
  rewrite decide_False by (cbn; congruence). lia.
Qed.

Lemma schedule_task_unique task w :
  unique_ids (jobs w) -> unique_ids (jobs (exec (schedule_task task) w)).
Proof.
  intros Hu jid. destruct (decide (jid = job_id_for_task (Task.id task))) as [->|Hne].
  - by rewrite schedule_task_count.
  - rewrite schedule_task_count_other by done. apply Hu.
Qed.

Lemma schedule_all_cons t ts w :
  schedule_all (t :: ts) w = schedule_all ts (exec (schedule_task t) w).
Proof.
  cbn [schedule_all]. unfold bind, exec. by rewrite schedule_task_run.
Qed.

Lemma schedule_all_snoc ts last w :
  schedule_all (ts ++ [last]) w = schedule_task last (exec (schedule_all ts) w).
Proof.
  revert w. induction ts as [|t ts IH]; intros w.
  - change (([] : list Task.t) ++ [last]) with [last]. rewrite schedule_all_cons.
    unfold exec. cbn [schedule_all]. unfold ret. cbn [snd].
    by rewrite schedule_task_run.
  - change ((t :: ts) ++ [last]) with (t :: (ts ++ [last])).
    rewrite schedule_all_cons, IH. f_equal. symmetry.
    unfold exec at 1. by rewrite schedule_all_cons.
Qed.

Lemma schedule_all_clock ts w : clock (exec (schedule_all ts) w) = clock w.
Proof.
  revert w. induction ts as [|t ts IH]; intros w; [reflexivity|].
  unfold exec at 1. rewrite schedule_all_cons.
  change (clock (exec (schedule_all ts) (exec (schedule_task t) w)) = clock w).
  by rewrite IH, schedule_task_clock.
Qed.

Lemma schedule_all_unique ts w :
  unique_ids (jobs w) -> unique_ids (jobs (exec (schedule_all ts) w)).
Proof.
  revert w. induction ts as [|t ts IH]; intros w Hu; [exact Hu|].
  unfold exec at 1. rewrite schedule_all_cons. apply IH. by apply schedule_task_unique.
Qed.

(** ** C1, C2, C8: the fire instants of a scheduled task *)

(** C1 (as stated, refuted).  Task 7 starts on 2024-01-01T09:00 IST with
    [freq_days = 1] and [remind_for_days = 3].  The job that [schedule_task]
    stores runs on 01-01, 01-02, 01-03 and also on 01-04 at 09:00, the end
    instant itself: the fire instants are not those strictly before the end
    instant. *)
Lemma daily_three_days_fires_on_the_end_instant :
  APScheduler.lookup_job (job_id_for_task 7)
    (jobs (exec (schedule_task (Sample.task "open" 1 3))
                (Sample.world (Sample.task "open" 1 3) ∅ [])))
  = Some (scheduled_job (Sample.task "open" 1 3) (Sample.jan1_0900 - 300 * usec_per_second))
  /\ APScheduler.fire_list
       (scheduled_job (Sample.task "open" 1 3) (Sample.jan1_0900 - 300 * usec_per_second)) 10
     = [Sample.jan1_0900; Sample.jan1_0900 + timedelta_days 1;
        Sample.jan1_0900 + timedelta_days 2; Sample.jan1_0900 + timedelta_days 3]
  /\ ~ (forall t,
          APScheduler.fires
            (scheduled_job (Sample.task "open" 1 3) (Sample.jan1_0900 - 300 * usec_per_second)) t
          <-> exists k, 0 <= k /\ t = Sample.jan1_0900 + k * timedelta_days 1
                        /\ t < Sample.jan1_0900 + timedelta_days 3).
Proof.
  split; [apply (schedule_task_lookup (Sample.task "open" 1 3)) |].
  split; [by vm_compute |].
  intros Hall.
  assert (Hf : APScheduler.fires
                 (scheduled_job (Sample.task "open" 1 3)
                    (Sample.jan1_0900 - 300 * usec_per_second))
                 (Sample.jan1_0900 + timedelta_days 3)).
  { apply scheduled_job_fires. exists 3.
    repeat split; vm_compute; congruence. }
  apply Hall in Hf. destruct Hf as (k & _ & _ & Hlt). lia.
Qed.

(** C1 (amended).  For [freq_days >= 1] and [remind_for_days >= 1], a task
    scheduled no later than its [start_at] is accepted, and the job stored
    under its id fires exactly at the instants [start_at + k * freq_days]
    days, [k >= 0], that are not after [start_at + remind_for_days] days: the
    end instant is inclusive, and no fire occurs after it. *)
Theorem schedule_task_fire_instants (task : Task.t) (w : World) :
  1 <= Task.freq_days task ->
  1 <= Task.remind_for_days task ->
  clock w <= instant (Task.start_at task) ->
  result (schedule_task task) w = Return tt /\
  exists j,
    APScheduler.lookup_job (job_id_for_task (Task.id task))
      (jobs (exec (schedule_task task) w)) = Some j /\
    forall t,
      APScheduler.fires j t <->
      exists k, 0 <= k /\
        t = instant (Task.start_at task) + k * timedelta_days (Task.freq_days task) /\
        t <= instant (Task.start_at task) + timedelta_days (Task.remind_for_days task).
Proof.
  intros Hf Hr Hc. split; [apply schedule_task_result|].
  exists (scheduled_job task (clock w)). split; [apply schedule_task_lookup|].
  intros t. rewrite scheduled_job_fires. unfold timedelta_days.
  rewrite (Z.max_r 1) by lia. rewrite (Z.max_r 0) by lia.
  pose proof usec_per_day_pos.
  split; intros (k & Hk & Ht & Hrest); exists k; repeat split; try tauto; nia.
Qed.

Lemma schedule_task_fire_instants_witness :
  APScheduler.fires
    (scheduled_job (Sample.task "open" 2 5) (Sample.jan1_0900 - 300 * usec_per_second))
    (Sample.jan1_0900 + timedelta_days 4).
Proof.
  destruct (schedule_task_fire_instants (Sample.task "open" 2 5)
              (Sample.world (Sample.task "open" 2 5) ∅ Sample.stale_jobs))
    as (_ & j & Hj & Hfires); [by vm_compute | by vm_compute | by vm_compute |].
  rewrite schedule_task_lookup in Hj. injection Hj as <-.
  apply Hfires. exists 2. repeat split; vm_compute; congruence.
Defined.

(** C2 (as stated, refuted).  Task 7 with [remind_for_days = 0], scheduled
    five minutes before its [start_at]: the stored job has a next run time and
    fires once, at [start_at]; it is not a job that never fires. *)
Lemma empty_window_fires_at_start :
  APScheduler.lookup_job (job_id_for_task 7)
    (jobs (exec (schedule_task (Sample.task "open" 1 0))
                (Sample.world (Sample.task "open" 1 0) ∅ [])))
  = Some (scheduled_job (Sample.task "open" 1 0) (Sample.jan1_0900 - 300 * usec_per_second))
  /\ APScheduler.next_run_time
       (scheduled_job (Sample.task "open" 1 0) (Sample.jan1_0900 - 300 * usec_per_second))
     = Some Sample.jan1_0900
  /\ ~ (forall t,
          ~ APScheduler.fires
              (scheduled_job (Sample.task "open" 1 0)
                 (Sample.jan1_0900 - 300 * usec_per_second)) t).
Proof.
  split; [apply (schedule_task_lookup (Sample.task "open" 1 0)) |].
  split; [by vm_compute |].
  intros Hnever. apply (Hnever Sample.jan1_0900).
  apply APScheduler.fires_first. by vm_compute.
Qed.

(** C2 (amended).  A task with [remind_for_days <= 0] is accepted by
    [schedule_task]; the job stored under its id has its end instant equal to
    [start_at], so it never fires after [start_at]: it fires exactly once, at
    [start_at], when it is scheduled no later than [start_at], and it never
    fires when it is scheduled later. *)
Theorem schedule_task_empty_window (task : Task.t) (w : World) :
  Task.remind_for_days task <= 0 ->
  result (schedule_task task) w = Return tt /\
  exists j,
    APScheduler.lookup_job (job_id_for_task (Task.id task))
      (jobs (exec (schedule_task task) w)) = Some j /\
    APScheduler.end_date (APScheduler.trigger j) = Some (instant (Task.start_at task)) /\
    forall t,
      APScheduler.fires j t <->
      t = instant (Task.start_at task) /\ clock w <= instant (Task.start_at task).
Proof.
  intros Hr. split; [apply schedule_task_result|].
  exists (scheduled_job task (clock w)). split; [apply schedule_task_lookup|].
  split.
  - rewrite scheduled_job_trigger. cbn [APScheduler.end_date].
    rewrite (Z.max_l 0) by lia. f_equal. lia.
  - intros t. rewrite scheduled_job_fires. rewrite (Z.max_l 0) by lia.
    pose proof usec_per_day_pos. split.
    + intros (k & Hk & Ht & Hnow & Hle). split; nia.
    + intros [-> Hnow]. exists 0. lia.
Qed.

Lemma schedule_task_empty_window_witness :
  APScheduler.fires
    (scheduled_job (Sample.task "open" 1 (-2)) (Sample.jan1_0900 - 300 * usec_per_second))
    Sample.jan1_0900
  /\ ~ APScheduler.fires
        (scheduled_job (Sample.task "open" 1 (-2)) (Sample.jan1_0900 - 300 * usec_per_second))
        (Sample.jan1_0900 + timedelta_days 1).
Proof.
  destruct (schedule_task_empty_window (Sample.task "open" 1 (-2))
              (Sample.world (Sample.task "open" 1 (-2)) ∅ []))
    as (_ & j & Hj & _ & Hfires); [by vm_compute |].
  rewrite schedule_task_lookup in Hj. injection Hj as <-. split.
  - apply Hfires. split; [reflexivity | by vm_compute].
  - intros Hf. apply Hfires in Hf. destruct Hf as [Heq _]. by vm_compute in Heq.
Defined.

(** C8.  A task with [freq_days < 1] is accepted by [schedule_task]; the
    interval of the job stored under its id is [max(1, freq_days)] days, that
    is one day, and each next fire time is one day after the previous one. *)
Theorem schedule_task_clamps_cadence (task : Task.t) (w : World) :
  Task.freq_days task < 1 ->
  result (schedule_task task) w = Return tt /\
  exists j,
    APScheduler.lookup_job (job_id_for_task (Task.id task))
      (jobs (exec (schedule_task task) w)) = Some j /\
    APScheduler.interval (APScheduler.trigger j)
      = timedelta_days (Z.max 1 (Task.freq_days task)) /\
    APScheduler.interval (APScheduler.trigger j) = timedelta_days 1 /\
    forall p t now,
      APScheduler.get_next_fire_time (APScheduler.trigger j) (Some p) now = Some t ->
      t = p + timedelta_days 1.
Proof.
  intros Hf. split; [apply schedule_task_result|].
  exists (scheduled_job task (clock w)). split; [apply schedule_task_lookup|].
  rewrite scheduled_job_trigger. cbn [APScheduler.interval].
  unfold timedelta_days. rewrite (Z.max_l 1) by lia.
  repeat split. intros p t now.
  unfold APScheduler.get_next_fire_time.
  cbn [APScheduler.interval APScheduler.end_date].
  destruct (_ <=? _); [|discriminate]. by intros [= <-].
Qed.

Lemma schedule_task_clamps_cadence_witness :
  APScheduler.fire_list
    (scheduled_job (Sample.task "open" (-3) 2) (Sample.jan1_0900 - 300 * usec_per_second)) 10
  = [Sample.jan1_0900; Sample.jan1_0900 + timedelta_days 1;
     Sample.jan1_0900 + timedelta_days 2]
  /\ APScheduler.interval
       (APScheduler.trigger
          (scheduled_job (Sample.task "open" (-3) 2)
             (Sample.jan1_0900 - 300 * usec_per_second)))
     = timedelta_days 1.
Proof.
  split; [by vm_compute |].
  destruct (schedule_task_clamps_cadence (Sample.task "open" (-3) 2)
              (Sample.world (Sample.task "open" (-3) 2) ∅ []))
    as (_ & j & Hj & _ & Hiv & _); [by vm_compute |].
  rewrite schedule_task_lookup in Hj. injection Hj as <-. exact Hiv.
Defined.

(** ** C3: one live job per task id *)

(** C3.  Whatever the job store holds before (no job, one job, or stale
    duplicates under the id), after [schedule_task] has been called any
    number of times, the last call being for [last], exactly one job is
    stored under the id of [last], and it is the definition made from [last];
    a store with at most one job per id keeps at most one job per id. *)
Theorem schedule_task_one_live_job (ts : list Task.t) (last : Task.t) (w : World) :
  result (schedule_all (ts ++ [last])) w = Return tt /\
  APScheduler.count_jobs (job_id_for_task (Task.id last))
    (jobs (exec (schedule_all (ts ++ [last])) w)) = 1%nat /\
  APScheduler.lookup_job (job_id_for_task (Task.id last))
    (jobs (exec (schedule_all (ts ++ [last])) w)) = Some (scheduled_job last (clock w)) /\
  (unique_ids (jobs w) -> unique_ids (jobs (exec (schedule_all (ts ++ [last])) w))).
Proof.
  unfold result, exec. rewrite schedule_all_snoc.
  change (schedule_task last (exec (schedule_all ts) w)).1
    with (result (schedule_task last) (exec (schedule_all ts) w)).
  change (schedule_task last (exec (schedule_all ts) w)).2
    with (exec (schedule_task last) (exec (schedule_all ts) w)).
  rewrite schedule_task_result, schedule_task_count, schedule_task_lookup,
    schedule_all_clock.
  repeat split. intros Hu. by apply schedule_task_unique, schedule_all_unique.
Qed.

Lemma schedule_task_one_live_job_witness :
  APScheduler.count_jobs (job_id_for_task 7) Sample.stale_jobs = 2%nat /\
  APScheduler.count_jobs (job_id_for_task 7)
    (jobs (exec (schedule_all ([Sample.task "open" 2 9; Sample.task "open" 5 20]
                               ++ [Sample.task "open" 1 3]))
                (Sample.world (Sample.task "open" 1 3) ∅ Sample.stale_jobs))) = 1%nat /\
  unique_ids
    (jobs (exec (schedule_all ([Sample.task "open" 2 9] ++ [Sample.task "open" 1 3]))
                (Sample.world (Sample.task "open" 1 3) ∅ []))).
Proof.
  split; [by vm_compute |]. split.
  - exact (proj1 (proj2 (schedule_task_one_live_job
                           [Sample.task "open" 2 9; Sample.task "open" 5 20]
                           (Sample.task "open" 1 3)
                           (Sample.world (Sample.task "open" 1 3) ∅ Sample.stale_jobs)))).
  - apply (schedule_task_one_live_job [Sample.task "open" 2 9] (Sample.task "open" 1 3)
             (Sample.world (Sample.task "open" 1 3) ∅ [])).
    intros jid. cbn. lia.
Defined.

(** ** C4, C6, C7: the dispatch path *)

Lemma closed_iff status :
  closed status = true <-> status = "completed" \/ status = "cancelled".
Proof.
  unfold closed. rewrite orb_true_iff, !bool_decide_eq_true. tauto.
Qed.

Lemma get_setting_run key default w :
  get_setting key default w =
  (Return (match settings (db w) !! key with Some v => v | None => default end), w).
Proof. reflexivity. Qed.

(** Rendering reads the settings and changes nothing. *)
Lemma render_message_world env t c w : snd (render_message env t c w) = w.
Proof.
  unfold render_message, bind. rewrite get_setting_run.
  destruct c; reflexivity.
Qed.

Lemma render_message_run env t c w :
  render_message env t c w = (result (render_message env t c) w, w).
Proof.
  rewrite <- (render_message_world env t c w) at 3. unfold result.
  by destruct (render_message env t c w).
Qed.

(** The outcomes of the transport call: it raises exactly when
    [requests.post] raises or the response has a 4xx or 5xx status. *)
Lemma api_send_text_raises env chat_id text w e :
  result (api_send_text env chat_id text) w = Raise e <->
  let post := requests_post env (length (posts (trace w)))
                (API_BASE env +:+ API_SEND env) chat_id text (API_SESSION env) in
  post = Raise e \/ exists r, post = Return r /\ raise_for_status r = Raise e.
Proof.
  unfold result, api_send_text, emit. cbn zeta.
  destruct (requests_post _ _ _ _ _ _) as [r|e'] eqn:Hp; cbn [fst].
  - destruct (raise_for_status r) as [[]|e'] eqn:Hs; cbn [fst].
    + destruct (json r); cbn [fst]; split; [discriminate | | discriminate | ];
        intros [H | (r' & [= <-] & H)]; congruence.
    + split; [intros [= <-]; right; eauto | ].
      intros [H | (r' & [= <-] & H)]; congruence.
  - split; [intros [= <-]; by left | ].
    intros [[= <-] | (r' & H & _)]; [reflexivity | discriminate].
Qed.

Lemma api_send_text_world env chat_id text w :
  exec (api_send_text env chat_id text) w =
  {| db := db w; jobs := jobs w; clock := clock w;
     trace := trace w ++ [EvPost chat_id text] |}.
Proof.
  unfold exec, api_send_text, emit.
  destruct (requests_post _ _ _ _ _ _) as [r|e']; [|reflexivity].
  destruct (raise_for_status r) as [[]|e']; [|reflexivity].
  by destruct (json r).
Qed.

(** The dispatch of a closed task, step by step. *)
Lemma send_task_ping_closed_run env task_id t w :
  tasks (db w) !! task_id = Some t ->
  closed (Task.status t) = true ->
  _send_task_ping env task_id w =
  (Return (false, "Task is " +:+ Task.status t +:+ "; not sending"),
   {| db := db w;
      jobs := APScheduler.delete_rows (job_id_for_task task_id) (jobs w);
      clock := clock w;
      trace := trace w ++ [EvRemoveJob (job_id_for_task task_id)] |}).
Proof.
  intros Ht Hc. unfold _send_task_ping. fold (cancel_task_schedule task_id).
  cbv beta iota delta [bind try_finally SessionLocal close ret].
  rewrite Ht, Hc. by rewrite cancel_task_schedule_run.
Qed.

(** The dispatch of an open task up to the transport call. *)
Lemma send_task_ping_open_run env task_id t w :
  tasks (db w) !! task_id = Some t ->
  closed (Task.status t) = false ->
  _send_task_ping env task_id w =
  let assignee :=
    find (fun c => bool_decide (Contact.id c = Task.assignee_id t)) (contacts (db w)) in
  match result (render_message env t assignee) w, assignee with
  | Raise e, _ => (Raise e, w)
  | Return msg, None =>
      (Raise (Exn "AttributeError" "'NoneType' object has no attribute 'chat_id'"), w)
  | Return msg, Some c =>
      match result (api_send_text env (Contact.chat_id c) msg) w with
      | Return resp =>
          (Return (true, str_reply env resp), exec (api_send_text env (Contact.chat_id c) msg) w)
      | Raise e =>
          (Return (false, exn_type e +:+ ": " +:+ exn_msg e),
           exec (api_send_text env (Contact.chat_id c) msg) w)
      end
  end.
Proof.
  intros Ht Hc. unfold _send_task_ping.
  cbv beta iota delta [bind try_finally SessionLocal close ret raise try_except].
  rewrite Ht, Hc. cbv zeta.
  rewrite render_message_run.
  destruct (result (render_message env t _) w) as [msg|e]; [|reflexivity].
  destruct (find _ _) as [c|]; [|reflexivity].
  unfold result, exec.
  destruct (api_send_text env (Contact.chat_id c) msg w) as [[resp|e] w']; reflexivity.
Qed.

(** C4.  A dispatch for a task whose status is [completed] or [cancelled]
    returns [(False, "Task is <status>; not sending")], leaves no job under
    the task's id in the job store, and makes no call to the messaging
    transport; the database is unchanged. *)
Theorem send_task_ping_closed (env : Env) (task_id : Z) (t : Task.t) (w : World) :
  tasks (db w) !! task_id = Some t ->
  Task.status t = "completed" \/ Task.status t = "cancelled" ->
  result (_send_task_ping env task_id) w
    = Return (false, "Task is " +:+ Task.status t +:+ "; not sending") /\
  APScheduler.lookup_job (job_id_for_task task_id)
    (jobs (exec (_send_task_ping env task_id) w)) = None /\
  trace (exec (_send_task_ping env task_id) w)
    = trace w ++ [EvRemoveJob (job_id_for_task task_id)] /\
  posts (trace (exec (_send_task_ping env task_id) w)) = posts (trace w) /\
  db (exec (_send_task_ping env task_id) w) = db w.
Proof.
  intros Ht Hs. apply closed_iff in Hs.
  unfold result, exec. rewrite (send_task_ping_closed_run env task_id t w Ht Hs).
  cbn [fst snd jobs trace db]. repeat split.
  - apply lookup_delete_rows.
  - unfold posts. rewrite omap_app. cbn. by rewrite app_nil_r.
Qed.

Lemma send_task_ping_closed_witness :
  _send_task_ping Sample.env_up 7
    (Sample.world (Sample.task "cancelled" 1 3) ∅ Sample.stale_jobs)
  = (Return (false, "Task is cancelled; not sending"),
     {| db := db (Sample.world (Sample.task "cancelled" 1 3) ∅ Sample.stale_jobs);
        jobs := [scheduled_job
                   {| Task.id := 8; Task.title := "Other"; Task.description := EmptyString;
                      Task.status := "open"; Task.priority := "low"; Task.due_at := None;
                      Task.assignee_id := 1; Task.start_at := Datetime Sample.jan1_0900 false;
                      Task.freq_days := 1; Task.remind_for_days := 5 |} 0];
        clock := Sample.jan1_0900 - 300 * usec_per_second;
        trace := [EvRemoveJob "task-7"] |})
  /\ posts (trace (exec (_send_task_ping Sample.env_up 7)
                     (Sample.world (Sample.task "cancelled" 1 3) ∅ Sample.stale_jobs))) = [].
Proof.
  split; [by vm_compute |].
  refine (proj1 (proj2 (proj2 (proj2
            (send_task_ping_closed Sample.env_up 7 (Sample.task "cancelled" 1 3)
               (Sample.world (Sample.task "cancelled" 1 3) ∅ Sample.stale_jobs) _ _))))).
  - by vm_compute.
  - right. reflexivity.
Defined.

(** The result of the transport call, by the outcome of [requests.post]. *)
Lemma api_send_text_result env chat_id text w :
  result (api_send_text env chat_id text) w =
  match requests_post env (length (posts (trace w)))
          (API_BASE env +:+ API_SEND env) chat_id text (API_SESSION env) with
  | Raise e => Raise e
  | Return r =>
      if (400 <=? status_code r) && (status_code r <? 600) then
        Raise (Exn "HTTPError"
                 (pretty (status_code r)
                  +:+ (if status_code r <? 500 then " Client Error: " else " Server Error: ")
                  +:+ reason r +:+ " for url: " +:+ url r))
      else
        Return (match json r with
                | Some j => JsonBody j
                | None => RawBody (response_text r)
                end)
  end.
Proof.
  unfold result, api_send_text, emit. cbn zeta.
  destruct (requests_post _ _ _ _ _ _) as [r|e]; [|reflexivity].
  unfold raise_for_status.
  destruct (Z.leb_spec 400 (status_code r)), (Z.ltb_spec (status_code r) 500),
    (Z.leb_spec 500 (status_code r)), (Z.ltb_spec (status_code r) 600);
    cbn [andb fst]; try lia; try reflexivity; by destruct (json r).
Qed.

(** C6 (as stated, refuted).  The transport answers the dispatch of task 7
    with status 304, which is not a 2xx status.  [_send_task_ping] reports
    the message as delivered: it returns [(True, "{'ok': True, 'raw': ''}")].
    So it is not the case that every answer with a status outside 200..299
    gives a not-delivered result. *)
Lemma not_modified_answer_is_reported_delivered :
  requests_post Sample.env_not_modified 0
    (API_BASE Sample.env_not_modified +:+ API_SEND Sample.env_not_modified)
    "919876543210@c.us"
    ("Hi Alice, what's the update on the task " +:+ dquote
     +:+ "Quarterly report" +:+ dquote +:+ "? (Due: N/A)")
    (API_SESSION Sample.env_not_modified)
  = Return {| status_code := 304; reason := "Not Modified";
              url := "http://localhost:3000/api/sendText";
              response_text := EmptyString; json := None |}
  /\ _send_task_ping Sample.env_not_modified 7
       (Sample.world (Sample.task "open" 1 3) ∅ Sample.stale_jobs)
     = (Return (true, "{'ok': True, 'raw': ''}"),
        {| db := db (Sample.world (Sample.task "open" 1 3) ∅ Sample.stale_jobs);
           jobs := Sample.stale_jobs;
           clock := Sample.jan1_0900 - 300 * usec_per_second;
           trace := [EvPost "919876543210@c.us"
                       ("Hi Alice, what's the update on the task " +:+ dquote
                        +:+ "Quarterly report" +:+ dquote +:+ "? (Due: N/A)")] |})
  /\ ~ (forall (env : Env) (task_id : Z) (t : Task.t) (c : Contact.t) (msg : string)
               (r : Response) (w : World),
          tasks (db w) !! task_id = Some t ->
          closed (Task.status t) = false ->
          find (fun c => bool_decide (Contact.id c = Task.assignee_id t)) (contacts (db w))
            = Some c ->
          result (render_message env t (Some c)) w = Return msg ->
          requests_post env (length (posts (trace w))) (API_BASE env +:+ API_SEND env)
            (Contact.chat_id c) msg (API_SESSION env) = Return r ->
          ~ (200 <= status_code r < 300) ->
          exists detail,
            result (_send_task_ping env task_id) w = Return (false, detail)).
Proof.
  split; [reflexivity|]. split; [by vm_compute|].
  intros Hall.
  destruct (Hall Sample.env_not_modified 7 (Sample.task "open" 1 3) Sample.alice
              ("Hi Alice, what's the update on the task " +:+ dquote
               +:+ "Quarterly report" +:+ dquote +:+ "? (Due: N/A)")
              {| status_code := 304; reason := "Not Modified";
                 url := "http://localhost:3000/api/sendText";
                 response_text := EmptyString; json := None |}
              (Sample.world (Sample.task "open" 1 3) ∅ Sample.stale_jobs))
    as [detail Hd]; [by vm_compute .. | cbn [status_code]; lia | ].
  vm_compute in Hd. discriminate Hd.
Qed.

(** C6 (amended).  The dispatch of an open task with an assignee, whose
    message renders to [msg], makes one POST, and its result is decided by the
    outcome of [requests.post]:
    - when it raises [e] (a timeout, a refused connection, any exception),
      [_send_task_ping] does not raise and returns
      [(False, "<type of e>: <message of e>")];
    - when it answers with a status from 400 to 599, [_send_task_ping] does
      not raise and returns [(False, "HTTPError: <status> Client Error: ...")],
      or [Server Error] from 500 on;
    - when it answers with any other status, 1xx and 3xx included, this is no
      failure: [_send_task_ping] returns [(True, str(body))].
    In all three cases the job store and the database are unchanged, so no
    job is cancelled, and exactly one POST was made, so nothing was retried. *)
Theorem send_task_ping_transport_failure
    (env : Env) (task_id : Z) (t : Task.t) (c : Contact.t) (msg : string) (w : World) :
  tasks (db w) !! task_id = Some t ->
  closed (Task.status t) = false ->
  find (fun c => bool_decide (Contact.id c = Task.assignee_id t)) (contacts (db w)) = Some c ->
  result (render_message env t (Some c)) w = Return msg ->
  result (_send_task_ping env task_id) w
    = match requests_post env (length (posts (trace w))) (API_BASE env +:+ API_SEND env)
              (Contact.chat_id c) msg (API_SESSION env) with
      | Raise e => Return (false, exn_type e +:+ ": " +:+ exn_msg e)
      | Return r =>
          if (400 <=? status_code r) && (status_code r <? 600) then
            Return (false,
                    "HTTPError: " +:+ pretty (status_code r)
                    +:+ (if status_code r <? 500 then " Client Error: " else " Server Error: ")
                    +:+ reason r +:+ " for url: " +:+ url r)
          else
            Return (true,
                    match json r with
                    | Some j => j
                    | None => "{'ok': True, 'raw': " +:+ repr env (response_text r) +:+ "}"
                    end)
      end /\
  jobs (exec (_send_task_ping env task_id) w) = jobs w /\
  db (exec (_send_task_ping env task_id) w) = db w /\
  trace (exec (_send_task_ping env task_id) w)
    = trace w ++ [EvPost (Contact.chat_id c) msg] /\
  posts (trace (exec (_send_task_ping env task_id) w))
    = posts (trace w) ++ [(Contact.chat_id c, msg)].
Proof.
  intros Ht Hc Ha Hr.
  assert (Hw : exec (_send_task_ping env task_id) w =
               {| db := db w; jobs := jobs w; clock := clock w;
                  trace := trace w ++ [EvPost (Contact.chat_id c) msg] |}).
  { unfold exec at 1. rewrite (send_task_ping_open_run env task_id t w Ht Hc). cbv zeta.
    rewrite Ha, Hr.
    destruct (result (api_send_text env (Contact.chat_id c) msg) w);
      cbn [snd]; by rewrite api_send_text_world. }
  rewrite !Hw. cbn [jobs db trace].
  split; [|repeat split; unfold posts; by rewrite omap_app].
  unfold result at 1. rewrite (send_task_ping_open_run env task_id t w Ht Hc). cbv zeta.
  rewrite Ha, Hr, api_send_text_result.
  destruct (requests_post _ _ _ _ _ _) as [r|e]; [|reflexivity].
  destruct ((400 <=? status_code r) && (status_code r <? 600)); cbn [fst].
  - cbn [exn_type exn_msg]. reflexivity.
  - by destruct (json r).
Qed.

Lemma send_task_ping_transport_failure_witness :
  result (_send_task_ping Sample.env_down 7)
    (Sample.world (Sample.task "open" 1 3) ∅ Sample.stale_jobs)
  = Return (false, "ConnectTimeout: connection to localhost timed out")
  /\ jobs (exec (_send_task_ping Sample.env_down 7)
             (Sample.world (Sample.task "open" 1 3) ∅ Sample.stale_jobs))
     = Sample.stale_jobs
  /\ result (_send_task_ping Sample.env_busy 7)
       (Sample.world (Sample.task "open" 1 3) ∅ Sample.stale_jobs)
     = Return (false,
               "HTTPError: 503 Server Error: Service Unavailable for url: http://localhost:3000/api/sendText")
  /\ posts (trace (exec (_send_task_ping Sample.env_busy 7)
                     (Sample.world (Sample.task "open" 1 3) ∅ Sample.stale_jobs)))
     = [("919876543210@c.us",
         "Hi Alice, what's the update on the task " +:+ dquote
         +:+ "Quarterly report" +:+ dquote +:+ "? (Due: N/A)")].
Proof.
  destruct (send_task_ping_transport_failure Sample.env_down 7 (Sample.task "open" 1 3)
              Sample.alice
              ("Hi Alice, what's the update on the task " +:+ dquote
               +:+ "Quarterly report" +:+ dquote +:+ "? (Due: N/A)")
              (Sample.world (Sample.task "open" 1 3) ∅ Sample.stale_jobs))
    as (Hres & Hjobs & _); [by vm_compute .. |].
  destruct (send_task_ping_transport_failure Sample.env_busy 7 (Sample.task "open" 1 3)
              Sample.alice
              ("Hi Alice, what's the update on the task " +:+ dquote
               +:+ "Quarterly report" +:+ dquote +:+ "? (Due: N/A)")
              (Sample.world (Sample.task "open" 1 3) ∅ Sample.stale_jobs))
    as (Hres' & _ & _ & _ & Hposts'); [by vm_compute .. |].
  split; [exact Hres|]. split; [exact Hjobs|]. split; [exact Hres'|]. exact Hposts'.
Defined.

(** A 503 answer is a failure as well: the detail is the [HTTPError] of
    [raise_for_status], and the jobs stay. *)
Example send_task_ping_http_error :
  _send_task_ping Sample.env_busy 7
    (Sample.world (Sample.task "open" 1 3) ∅ Sample.stale_jobs)
  = (Return (false,
             "HTTPError: 503 Server Error: Service Unavailable for url: http://localhost:3000/api/sendText"),
     {| db := db (Sample.world (Sample.task "open" 1 3) ∅ Sample.stale_jobs);
        jobs := Sample.stale_jobs;
        clock := Sample.jan1_0900 - 300 * usec_per_second;
        trace := [EvPost "919876543210@c.us"
                    ("Hi Alice, what's the update on the task " +:+ dquote
                     +:+ "Quarterly report" +:+ dquote +:+ "? (Due: N/A)")] |}).
Proof. by vm_compute. Qed.

(** C7 (as stated, refuted).  With the template ["Ping {name}: {title}"],
    whose placeholder [name] is not among the keyword arguments, the dispatch
    of task 7 raises [KeyError]: the exception leaves [_send_task_ping], no
    fallback message is built and nothing is posted. *)
Lemma unknown_placeholder_escapes_dispatch :
  _send_task_ping Sample.env_up 7
    (Sample.world (Sample.task "open" 1 3)
       {[ "message_template" := "Ping {name}: {title}" ]} Sample.stale_jobs)
  = (Raise (Exn "KeyError" "'name'"),
     Sample.world (Sample.task "open" 1 3)
       {[ "message_template" := "Ping {name}: {title}" ]} Sample.stale_jobs).
Proof. by vm_compute. Qed.

(** C7 (amended).  Rendering is not guarded in the dispatch path: when
    [render_message] raises [e] for an open task, [_send_task_ping] raises the
    same [e], with the world unchanged (nothing posted, no job removed); when
    rendering returns [msg], the text posted to the assignee is [msg]. *)
Theorem send_task_ping_render (env : Env) (task_id : Z) (t : Task.t) (w : World) :
  tasks (db w) !! task_id = Some t ->
  closed (Task.status t) = false ->
  (forall e,
     result (render_message env t
               (find (fun c => bool_decide (Contact.id c = Task.assignee_id t))
                     (contacts (db w)))) w = Raise e ->
     _send_task_ping env task_id w = (Raise e, w)) /\
  (forall c msg,
     find (fun c => bool_decide (Contact.id c = Task.assignee_id t)) (contacts (db w)) = Some c ->
     result (render_message env t (Some c)) w = Return msg ->
     trace (exec (_send_task_ping env task_id) w)
       = trace w ++ [EvPost (Contact.chat_id c) msg]).
Proof.
  intros Ht Hc. split.
  - intros e Hr. rewrite (send_task_ping_open_run env task_id t w Ht Hc). cbv zeta.
    by rewrite Hr.
  - intros c msg Ha Hr. unfold exec at 1.
    rewrite (send_task_ping_open_run env task_id t w Ht Hc). cbv zeta.
    rewrite Ha, Hr.
    destruct (result (api_send_text env (Contact.chat_id c) msg) w);
      cbn [snd]; by rewrite api_send_text_world.
Qed.

Lemma send_task_ping_render_witness :
  _send_task_ping Sample.env_up 7
    (Sample.world (Sample.task "open" 1 3)
       {[ "message_template" := "{title} is due }" ]} [])
  = (Raise (Exn "ValueError" "Single '}' encountered in format string"),
     Sample.world (Sample.task "open" 1 3)
       {[ "message_template" := "{title} is due }" ]} []).
Proof.
  refine (proj1 (send_task_ping_render Sample.env_up 7 (Sample.task "open" 1 3)
                   (Sample.world (Sample.task "open" 1 3)
                      {[ "message_template" := "{title} is due }" ]} []) _ _) _ _);
    by vm_compute.
Defined.

(** ** C5, C9: status changes and deletion *)

(** The audit comment written by [update_task_status]. *)
Lemma update_task_status_run task_id new_status t w :
  tasks (db w) !! task_id = Some t ->
  update_task_status task_id new_status w =
  let t' := Task.set_status new_status t in
  let body := "Status changed to " +:+ new_status in
  let committed :=
    {| db := with_task_comments
               (with_tasks (db w) (<[task_id := t']> (tasks (db w))))
               (task_comments (db w) ++
                [{| TaskComment.id := next_id (map TaskComment.id (task_comments (db w)));
                    TaskComment.task_id := task_id;
                    TaskComment.author := "system";
                    TaskComment.body := body |}]);
       jobs := jobs w;
       clock := clock w;
       trace := trace w ++ [EvSetStatus task_id new_status;
                            EvAddComment task_id "system" body;
                            EvCommit] |} in
  (Return true,
   if closed new_status then exec (cancel_task_schedule task_id) committed
   else exec (schedule_task t') committed).
Proof.
  intros Ht. unfold update_task_status.
  cbv beta iota delta [bind try_finally SessionLocal close ret emit commit].
  rewrite Ht. cbv zeta. cbn [db jobs clock trace with_tasks with_task_comments
                             tasks task_comments].
  rewrite <- !app_assoc. cbn [app].
  destruct (closed new_status).
  - unfold exec. by rewrite cancel_task_schedule_run.
  - unfold exec. by rewrite schedule_task_run.
Qed.

Lemma next_id_above (ids : list Z) (x : Z) : x ∈ ids -> x < next_id ids.
Proof.
  unfold next_id. induction ids as [|y ids IH]; intros Hx; [by apply elem_of_nil in Hx|].
  cbn [foldr]. apply elem_of_cons in Hx as [-> | Hx]; [lia|].
  specialize (IH Hx). lia.
Qed.

Lemma next_id_fresh (ids : list Z) : next_id ids ∉ ids.
Proof. intros H. apply next_id_above in H. lia. Qed.

(** C5.  For an existing task, [update_task_status] returns [True] and
    performs three steps in this order.  First the status update: the task
    row gets [new_status] and keeps every other column.  Then the audit
    comment: one row [(task_id, "system", "Status changed to <status>")] with
    a fresh id is appended to the comments.  Both are committed (world [w1]),
    with the job store still as it was.  Only then, from [w1], the schedule
    decision is taken: for [completed] or [cancelled] the task's job is
    removed and no job is left under its id; otherwise the task is
    rescheduled, and exactly one job, made from the updated task, is stored
    under its id.  The decision changes the job store only: the database at
    the end is the committed one, and nothing else in it has changed. *)
Theorem update_task_status_order (task_id : Z) (new_status : string)
    (t : Task.t) (w : World) :
  tasks (db w) !! task_id = Some t ->
  Task.id t = task_id ->
  exists t' comment w1,
    t' = {| Task.id := Task.id t; Task.title := Task.title t;
            Task.description := Task.description t;
            Task.status := new_status;
            Task.priority := Task.priority t; Task.due_at := Task.due_at t;
            Task.assignee_id := Task.assignee_id t; Task.start_at := Task.start_at t;
            Task.freq_days := Task.freq_days t;
            Task.remind_for_days := Task.remind_for_days t |} /\
    comment = {| TaskComment.id := next_id (map TaskComment.id (task_comments (db w)));
                 TaskComment.task_id := task_id;
                 TaskComment.author := "system";
                 TaskComment.body := "Status changed to " +:+ new_status |} /\
    w1 = {| db := {| tasks := <[task_id := t']> (tasks (db w));
                     contacts := contacts (db w);
                     task_comments := task_comments (db w) ++ [comment];
                     settings := settings (db w) |};
            jobs := jobs w;
            clock := clock w;
            trace := trace w ++ [EvSetStatus task_id new_status;
                                 EvAddComment task_id "system"
                                   ("Status changed to " +:+ new_status);
                                 EvCommit] |} /\
    result (update_task_status task_id new_status) w = Return true /\
    exec (update_task_status task_id new_status) w
      = exec (if closed new_status then cancel_task_schedule task_id else schedule_task t') w1 /\
    db (exec (update_task_status task_id new_status) w) = db w1 /\
    tasks (db (exec (update_task_status task_id new_status) w)) !! task_id = Some t' /\
    Task.status t' = new_status /\
    (forall k, k <> task_id ->
       tasks (db (exec (update_task_status task_id new_status) w)) !! k = tasks (db w) !! k) /\
    task_comments (db (exec (update_task_status task_id new_status) w))
      = task_comments (db w) ++ [comment] /\
    (TaskComment.id comment ∉ map TaskComment.id (task_comments (db w))) /\
    trace (exec (update_task_status task_id new_status) w)
      = trace w
        ++ [EvSetStatus task_id new_status;
            EvAddComment task_id "system" ("Status changed to " +:+ new_status);
            EvCommit]
        ++ (if closed new_status then [EvRemoveJob (job_id_for_task task_id)]
            else [EvRemoveJob (job_id_for_task task_id); EvAddJob (job_id_for_task task_id)]) /\
    (if closed new_status then
       APScheduler.lookup_job (job_id_for_task task_id)
         (jobs (exec (update_task_status task_id new_status) w)) = None /\
       APScheduler.count_jobs (job_id_for_task task_id)
         (jobs (exec (update_task_status task_id new_status) w)) = 0%nat
     else
       APScheduler.lookup_job (job_id_for_task task_id)
         (jobs (exec (update_task_status task_id new_status) w))
         = Some (scheduled_job t' (clock w)) /\
       APScheduler.count_jobs (job_id_for_task task_id)
         (jobs (exec (update_task_status task_id new_status) w)) = 1%nat).
Proof.
  intros Ht Hid. do 3 eexists.
  split; [reflexivity|]. split; [reflexivity|]. split; [reflexivity|].
  pose proof (update_task_status_run task_id new_status t w Ht) as Hrun. cbv zeta in Hrun.
  unfold Task.set_status, with_task_comments, with_tasks in Hrun.
  cbn [tasks contacts task_comments settings] in Hrun.
  split; [unfold result; by rewrite Hrun|].
  assert (Hex : exec (update_task_status task_id new_status) w = snd (update_task_status task_id new_status w))
    by reflexivity.
  rewrite !Hex, Hrun. cbn [snd]. clear Hex Hrun.
  destruct (closed new_status).
  - split; [reflexivity|].
    unfold exec. rewrite !cancel_task_schedule_run.
    cbn [snd trace db jobs tasks task_comments TaskComment.id Task.status].
    rewrite <- app_assoc. repeat split.
    + apply lookup_insert_eq.
    + intros k Hk. by apply lookup_insert_ne.
    + apply next_id_fresh.
    + apply lookup_delete_rows.
    + apply count_delete_rows_eq.
  - split; [reflexivity|].
    unfold exec. rewrite !schedule_task_run.
    cbn [snd trace db jobs clock tasks task_comments TaskComment.id Task.status Task.id].
    rewrite !Hid. rewrite <- app_assoc. repeat split.
    + apply lookup_insert_eq.
    + intros k Hk. by apply lookup_insert_ne.
    + apply next_id_fresh.
    + apply lookup_job_app_new; [apply lookup_delete_rows | by rewrite <- Hid].
    + rewrite count_jobs_app, count_delete_rows_eq, count_jobs_single.
      rewrite decide_True; [reflexivity | by rewrite <- Hid].
Qed.

Lemma update_task_status_order_witness :
  Task.status <$> tasks (db (exec (update_task_status 7 "completed")
                               (Sample.world (Sample.task "open" 1 3) ∅ Sample.stale_jobs))) !! 7
  = Some "completed"
  /\ task_comments (db (exec (update_task_status 7 "completed")
                          (Sample.world (Sample.task "open" 1 3) ∅ Sample.stale_jobs)))
     = [ {| TaskComment.id := 1; TaskComment.task_id := 7;
            TaskComment.author := "admin"; TaskComment.body := "started" |};
         {| TaskComment.id := 2; TaskComment.task_id := 8;
            TaskComment.author := "admin"; TaskComment.body := "other" |};
         {| TaskComment.id := 3; TaskComment.task_id := 7;
            TaskComment.author := "system";
            TaskComment.body := "Status changed to completed" |} ]
  /\ trace (exec (update_task_status 7 "completed")
              (Sample.world (Sample.task "open" 1 3) ∅ Sample.stale_jobs))
     = [EvSetStatus 7 "completed"; EvAddComment 7 "system" "Status changed to completed";
        EvCommit; EvRemoveJob "task-7"]
  /\ APScheduler.count_jobs "task-7"
       (jobs (exec (update_task_status 7 "completed")
                (Sample.world (Sample.task "open" 1 3) ∅ Sample.stale_jobs))) = 0%nat
  /\ Task.status <$> tasks (db (exec (update_task_status 7 "in_progress")
                                  (Sample.world (Sample.task "open" 1 3) ∅ Sample.stale_jobs))) !! 7
     = Some "in_progress"
  /\ trace (exec (update_task_status 7 "in_progress")
              (Sample.world (Sample.task "open" 1 3) ∅ Sample.stale_jobs))
     = [EvSetStatus 7 "in_progress"; EvAddComment 7 "system" "Status changed to in_progress";
        EvCommit; EvRemoveJob "task-7"; EvAddJob "task-7"]
  /\ APScheduler.count_jobs "task-7"
       (jobs (exec (update_task_status 7 "in_progress")
                (Sample.world (Sample.task "open" 1 3) ∅ Sample.stale_jobs))) = 1%nat.
Proof.
  destruct (update_task_status_order 7 "completed" (Sample.task "open" 1 3)
              (Sample.world (Sample.task "open" 1 3) ∅ Sample.stale_jobs))
    as (t1 & c1 & w1 & -> & -> & _ & _ & _ & _ & Ht1 & _ & _ & Hc1 & _ & Htr1 & Hj1);
    [by vm_compute | reflexivity |].
  destruct (update_task_status_order 7 "in_progress" (Sample.task "open" 1 3)
              (Sample.world (Sample.task "open" 1 3) ∅ Sample.stale_jobs))
    as (t2 & c2 & w2 & -> & -> & _ & _ & _ & _ & Ht2 & _ & _ & _ & _ & Htr2 & Hj2);
    [by vm_compute | reflexivity |].
  split; [by rewrite Ht1|]. split; [exact Hc1|]. split; [exact Htr1|].
  split; [exact (proj2 Hj1)|]. split; [by rewrite Ht2|]. split; [exact Htr2|].
  exact (proj2 Hj2).
Defined.

(** C9.  For an existing task, [delete_task] returns [True] after, in this
    order, removing the task's job, deleting the comments of the task,
    deleting the task row, and committing; afterwards no job is stored under
    the task's id, the task is gone, and the comments left are those of the
    other tasks.  For a task that does not exist it returns [False] and the
    database is unchanged. *)
Theorem delete_task_order (task_id : Z) (w : World) :
  match tasks (db w) !! task_id with
  | Some _ =>
      result (delete_task task_id) w = Return true /\
      trace (exec (delete_task task_id) w)
        = trace w ++ [EvRemoveJob (job_id_for_task task_id);
                      EvDeleteComments task_id; EvDeleteTask task_id; EvCommit] /\
      APScheduler.lookup_job (job_id_for_task task_id) (jobs (exec (delete_task task_id) w))
        = None /\
      tasks (db (exec (delete_task task_id) w)) !! task_id = None /\
      task_comments (db (exec (delete_task task_id) w))
        = filter (fun c => TaskComment.task_id c <> task_id) (task_comments (db w))
  | None =>
      result (delete_task task_id) w = Return false /\
      db (exec (delete_task task_id) w) = db w
  end.
Proof.
  unfold result, exec, delete_task.
  cbv beta iota delta [bind]. rewrite cancel_task_schedule_run.
  cbv beta iota delta [try_finally bind SessionLocal close ret emit commit].
  cbn [db jobs clock trace]. 
  destruct (tasks (db w) !! task_id) as [t|] eqn:Ht;
    cbn [fst snd db jobs clock trace with_tasks with_task_comments tasks task_comments].
  - rewrite <- !app_assoc. repeat split.
    + apply lookup_delete_rows.
    + apply lookup_delete_eq.
  - by split.
Qed.

(** Deleting task 7 of the sample world: its two stale jobs and its comment
    go, the job and the comment of task 8 stay. *)
Example delete_task_sample :
  result (delete_task 7) (Sample.world (Sample.task "open" 1 3) ∅ Sample.stale_jobs)
    = Return true
  /\ map APScheduler.job_id
       (jobs (exec (delete_task 7)
                (Sample.world (Sample.task "open" 1 3) ∅ Sample.stale_jobs))) = ["task-8"]
  /\ map TaskComment.id
       (task_comments
          (db (exec (delete_task 7)
                 (Sample.world (Sample.task "open" 1 3) ∅ Sample.stale_jobs)))) = [2]
  /\ result (delete_task 9) (Sample.world (Sample.task "open" 1 3) ∅ Sample.stale_jobs)
      = Return false.
Proof. by vm_compute. Qed.

(** ** C10: [upsert_contact] on an existing chat id *)

Section Rows.
Context {A K : Type} `{EqDecision K} (key : A -> K).

Lemma key_in_column (l : list A) (u : A) : u ∈ l -> key u ∈ map key l.
Proof. intros Hu. apply list_elem_of_In, in_map, list_elem_of_In, Hu. Qed.

(** In a table whose [key] column has no duplicates, a key determines its
    row. *)
Lemma key_determines_row (l : list A) (x y : A) :
  NoDup (map key l) -> x ∈ l -> y ∈ l -> key y = key x -> y = x.
Proof.
  induction l as [|z l IH]; intros Hnd Hx Hy Hk; [by apply elem_of_nil in Hx|].
  cbn [map] in Hnd. apply NoDup_cons in Hnd as [Hz Hnd].
  apply elem_of_cons in Hx as [-> | Hx]; apply elem_of_cons in Hy as [-> | Hy].
  - reflexivity.
  - exfalso. apply Hz. rewrite <- Hk. by apply key_in_column.
  - exfalso. apply Hz. rewrite Hk. by apply key_in_column.
  - by apply IH.
Qed.

(** No row carries a key that is absent from the column. *)
Lemma filter_absent_key (l : list A) (k : K) :
  k ∉ map key l -> filter (fun y => key y = k) l = [].
Proof.
  induction l as [|z l IH]; intros Hk; [reflexivity|].
  cbn [map] in Hk. apply not_elem_of_cons in Hk as [Hz Hk].
  rewrite filter_cons_False by congruence. by apply IH.
Qed.

(** The rows that carry the key of a stored row are that row alone. *)
Lemma filter_unique_key (l : list A) (x : A) :
  NoDup (map key l) -> x ∈ l -> filter (fun y => key y = key x) l = [x].
Proof.
  induction l as [|z l IH]; intros Hnd Hx; [by apply elem_of_nil in Hx|].
  pose proof Hnd as Hnd0.
  cbn [map] in Hnd. apply NoDup_cons in Hnd as [Hz Hnd].
  destruct (decide (key z = key x)) as [Hk|Hk].
  - assert (z = x) as ->.
    { apply (key_determines_row (z :: l) x z Hnd0 Hx); [left | exact Hk]. }
    rewrite filter_cons_True by done. f_equal. by apply filter_absent_key.
  - rewrite filter_cons_False by done. apply IH; [exact Hnd|].
    apply elem_of_cons in Hx as [-> | Hx]; [congruence | exact Hx].
Qed.

(** Replacing the row with the key of [x] by a row [x'] with the same key
    keeps the key column, and puts [x'] in the table. *)
Lemma replace_row_keys (l : list A) (x x' : A) :
  key x' = key x ->
  map key (map (fun r => if bool_decide (key r = key x) then x' else r) l) = map key l.
Proof.
  intros Hk. induction l as [|z l IH]; [reflexivity|]. cbn [map]. rewrite IH. f_equal.
  case_bool_decide; congruence.
Qed.

Lemma replace_row_elem (l : list A) (x x' : A) :
  x ∈ l -> x' ∈ map (fun r => if bool_decide (key r = key x) then x' else r) l.
Proof.
  intros Hx. apply list_elem_of_In, in_map_iff. exists x.
  split; [by rewrite bool_decide_eq_true_2 | by apply list_elem_of_In].
Qed.

(** Another column on which [x'] agrees with [x] is kept too. *)
Lemma replace_row_column {B} (g : A -> B) (l : list A) (x x' : A) :
  NoDup (map key l) -> x ∈ l -> g x' = g x ->
  map g (map (fun r => if bool_decide (key r = key x) then x' else r) l) = map g l.
Proof.
  intros Hnd Hx Hg. rewrite map_map. apply map_ext_in. intros r Hr.
  case_bool_decide as Hk; [|reflexivity].
  rewrite (key_determines_row l x r Hnd Hx); [exact Hg | by apply list_elem_of_In | exact Hk].
Qed.

End Rows.

Lemma py_or_spec a b :
  (a = EmptyString -> py_or a b = b) /\ (a <> EmptyString -> py_or a b = a).
Proof. unfold py_or. destruct (decide (a = EmptyString)); split; congruence. Qed.

(** The update branch of [upsert_contact]. *)
Lemma upsert_contact_update_run env name phone tags note region e164 c w :
  contacts_ok (contacts (db w)) ->
  to_e164 env phone region = Some e164 ->
  e164 <> EmptyString ->
  c ∈ contacts (db w) ->
  Contact.chat_id c = chat_id_from_e164 e164 ->
  upsert_contact env name phone tags note region w =
  let c' :=
    {| Contact.id := Contact.id c;
       Contact.name := py_or name (Contact.name c);
       Contact.phone_raw := phone;
       Contact.phone_e164 := e164;
       Contact.chat_id := Contact.chat_id c;
       Contact.tags := py_or tags (Contact.tags c);
       Contact.note := py_or note (Contact.note c) |} in
  (Return c',
   {| db := with_contacts (db w)
              (map (fun r => if bool_decide (Contact.id r = Contact.id c) then c' else r)
                   (contacts (db w)));
      jobs := jobs w; clock := clock w; trace := trace w ++ [EvCommit] |}).
Proof.
  intros [_ Hchat] He Hne Hc Hcid. unfold upsert_contact. rewrite He.
  rewrite decide_False by exact Hne.
  cbv beta iota delta [try_finally bind SessionLocal close ret lift commit].
  rewrite <- Hcid. rewrite (filter_unique_key Contact.chat_id _ c Hchat Hc).
  reflexivity.
Qed.

(** C10.  When the phone number normalizes to the chat id of a stored
    contact [c], [upsert_contact] returns the updated row of [c]: same id and
    chat id, [phone_raw] and [phone_e164] overwritten, and each of [name],
    [tags], [note] replaced by the argument when it is not empty and kept
    when it is empty.  The table keeps its length and its ids, the updated
    row is the only one with that chat id, and the table still satisfies its
    uniqueness constraints. *)
Theorem upsert_contact_existing (env : Env) (name phone tags note region e164 : string)
    (c : Contact.t) (w : World) :
  contacts_ok (contacts (db w)) ->
  to_e164 env phone region = Some e164 ->
  e164 <> EmptyString ->
  c ∈ contacts (db w) ->
  Contact.chat_id c = chat_id_from_e164 e164 ->
  exists c',
    result (upsert_contact env name phone tags note region) w = Return c' /\
    Contact.id c' = Contact.id c /\
    Contact.chat_id c' = Contact.chat_id c /\
    Contact.phone_raw c' = phone /\
    Contact.phone_e164 c' = e164 /\
    (name = EmptyString -> Contact.name c' = Contact.name c) /\
    (name <> EmptyString -> Contact.name c' = name) /\
    (tags = EmptyString -> Contact.tags c' = Contact.tags c) /\
    (tags <> EmptyString -> Contact.tags c' = tags) /\
    (note = EmptyString -> Contact.note c' = Contact.note c) /\
    (note <> EmptyString -> Contact.note c' = note) /\
    contacts (db (exec (upsert_contact env name phone tags note region) w))
      = map (fun r => if bool_decide (Contact.id r = Contact.id c) then c' else r)
            (contacts (db w)) /\
    length (contacts (db (exec (upsert_contact env name phone tags note region) w)))
      = length (contacts (db w)) /\
    map Contact.id (contacts (db (exec (upsert_contact env name phone tags note region) w)))
      = map Contact.id (contacts (db w)) /\
    filter (fun r => Contact.chat_id r = chat_id_from_e164 e164)
      (contacts (db (exec (upsert_contact env name phone tags note region) w))) = [c'] /\
    contacts_ok (contacts (db (exec (upsert_contact env name phone tags note region) w))).
Proof.
  intros Hok He Hne Hc Hcid. pose proof Hok as [Hids Hchats].
  unfold result, exec.
  rewrite (upsert_contact_update_run env name phone tags note region e164 c w
             Hok He Hne Hc Hcid).
  cbv zeta. cbn [fst snd db contacts with_contacts].
  set (c' := {| Contact.id := Contact.id c;
                Contact.name := py_or name (Contact.name c);
                Contact.phone_raw := phone; Contact.phone_e164 := e164;
                Contact.chat_id := Contact.chat_id c;
                Contact.tags := py_or tags (Contact.tags c);
                Contact.note := py_or note (Contact.note c) |}).
  set (cs' := map (fun r => if bool_decide (Contact.id r = Contact.id c) then c' else r)
                  (contacts (db w))).
  assert (Hids' : map Contact.id cs' = map Contact.id (contacts (db w)))
    by (apply (replace_row_keys Contact.id); reflexivity).
  assert (Hchats' : map Contact.chat_id cs' = map Contact.chat_id (contacts (db w)))
    by (apply (replace_row_column Contact.id Contact.chat_id); [exact Hids | exact Hc | reflexivity]).
  assert (Hc' : c' ∈ cs') by (by apply (replace_row_elem Contact.id)).
  exists c'. repeat split; try (apply py_or_spec).
  - apply length_map.
  - exact Hids'.
  - rewrite <- Hcid. change (Contact.chat_id c) with (Contact.chat_id c').
    apply (filter_unique_key Contact.chat_id); [by rewrite Hchats' | exact Hc'].
  - by rewrite Hids'.
  - by rewrite Hchats'.
Qed.

Lemma upsert_contact_existing_witness :
  upsert_contact Sample.env_up EmptyString "98765 43210" "sales" EmptyString "IN"
    (Sample.world (Sample.task "open" 1 3) ∅ [])
  = (Return {| Contact.id := 1; Contact.name := "Alice"; Contact.phone_raw := "98765 43210";
               Contact.phone_e164 := "+919876543210";
               Contact.chat_id := "919876543210@c.us";
               Contact.tags := "sales"; Contact.note := "lead" |},
     {| db := with_contacts (db (Sample.world (Sample.task "open" 1 3) ∅ []))
                [{| Contact.id := 1; Contact.name := "Alice";
                    Contact.phone_raw := "98765 43210";
                    Contact.phone_e164 := "+919876543210";
                    Contact.chat_id := "919876543210@c.us";
                    Contact.tags := "sales"; Contact.note := "lead" |}];
        jobs := []; clock := Sample.jan1_0900 - 300 * usec_per_second;
        trace := [EvCommit] |})
  /\ exists c',
       result (upsert_contact Sample.env_up EmptyString "98765 43210" "sales" EmptyString "IN")
         (Sample.world (Sample.task "open" 1 3) ∅ []) = Return c'
       /\ Contact.name c' = "Alice".
Proof.
  split; [by vm_compute |].
  destruct (upsert_contact_existing Sample.env_up EmptyString "98765 43210" "sales"
              EmptyString "IN" "+919876543210" Sample.alice
              (Sample.world (Sample.task "open" 1 3) ∅ []))
    as (c' & Hres & _ & _ & _ & _ & Hname & _).
  - split; cbn; apply NoDup_singleton.
  - by vm_compute.
  - discriminate.
  - cbn. left.
  - by vm_compute.
  - exists c'. split; [exact Hres | exact (Hname eq_refl)].
Defined.

(** * Further properties of [app.py] *)

(** ** Job ids and the job store *)

(** [job_id_for_task] gives different tasks different job ids. *)
Theorem job_id_for_task_inj (a b : Z) :
  job_id_for_task a = job_id_for_task b -> a = b.
Proof.
  unfold job_id_for_task. intros H.
  apply (inj pretty). by apply (inj (String.append "task-")) in H.
Qed.

Lemma job_id_for_task_inj_witness : 7 = 7.
Proof. exact (job_id_for_task_inj 7 7 eq_refl). Defined.

Lemma lookup_job_delete_other jid jid' js :
  jid' <> jid ->
  APScheduler.lookup_job jid' (APScheduler.delete_rows jid js) = APScheduler.lookup_job jid' js.
Proof.
  intros Hne. unfold APScheduler.lookup_job, APScheduler.delete_rows, APScheduler.has_id.
  induction js as [|j js IH]; [reflexivity|].
  destruct (decide (APScheduler.job_id j = jid)) as [Hj|Hj].
  - rewrite filter_cons_False by tauto. cbn [find].
    rewrite bool_decide_eq_false_2 by congruence. exact IH.
  - rewrite filter_cons_True by done. cbn [find]. by rewrite IH.
Qed.

Lemma lookup_job_app_other jid' js (j : APScheduler.Job) :
  APScheduler.job_id j <> jid' ->
  APScheduler.lookup_job jid' (js ++ [j]) = APScheduler.lookup_job jid' js.
Proof.
  intros Hne. unfold APScheduler.lookup_job, APScheduler.has_id.
  induction js as [|j' js IH]; cbn [app find].
  - by rewrite bool_decide_eq_false_2.
  - by rewrite IH.
Qed.

(** Scheduling a task leaves the jobs of every other task, and the database,
    as they were. *)
Theorem schedule_task_other_tasks (task : Task.t) (other : Z) (w : World) :
  other <> Task.id task ->
  APScheduler.lookup_job (job_id_for_task other) (jobs (exec (schedule_task task) w))
    = APScheduler.lookup_job (job_id_for_task other) (jobs w) /\
  APScheduler.count_jobs (job_id_for_task other) (jobs (exec (schedule_task task) w))
    = APScheduler.count_jobs (job_id_for_task other) (jobs w) /\
  db (exec (schedule_task task) w) = db w.
Proof.
  intros Hne.
  assert (Hjid : job_id_for_task other <> job_id_for_task (Task.id task)).
  { intros H. apply Hne. apply (inj pretty).
    by apply (inj (String.append "task-")) in H. }
  split; [|split].
  - unfold exec. rewrite schedule_task_run. cbn [snd jobs].
    rewrite lookup_job_app_other by (cbn; congruence).
    by apply lookup_job_delete_other.
  - by apply schedule_task_count_other.
  - unfold exec. by rewrite schedule_task_run.
Qed.

Lemma schedule_task_other_tasks_witness :
  APScheduler.lookup_job (job_id_for_task 8)
    (jobs (exec (schedule_task (Sample.task "open" 1 3))
             (Sample.world (Sample.task "open" 1 3) ∅ Sample.stale_jobs)))
  = APScheduler.lookup_job (job_id_for_task 8) Sample.stale_jobs.
Proof.
  refine (proj1 (schedule_task_other_tasks (Sample.task "open" 1 3) 8
                   (Sample.world (Sample.task "open" 1 3) ∅ Sample.stale_jobs) _)).
  discriminate.
Defined.

Lemma delete_rows_twice jid js :
  APScheduler.delete_rows jid (APScheduler.delete_rows jid js) = APScheduler.delete_rows jid js.
Proof. apply delete_rows_absent, lookup_delete_rows. Qed.

(** [cancel_task_schedule] never raises, whether or not the task has a job;
    afterwards no job is stored under the task's id, the jobs of other tasks
    and the database are untouched, and a second cancellation changes nothing
    in the job store. *)
Theorem cancel_task_schedule_idempotent (task_id : Z) (w : World) :
  result (cancel_task_schedule task_id) w = Return tt /\
  APScheduler.lookup_job (job_id_for_task task_id)
    (jobs (exec (cancel_task_schedule task_id) w)) = None /\
  (forall other, other <> task_id ->
     APScheduler.lookup_job (job_id_for_task other)
       (jobs (exec (cancel_task_schedule task_id) w))
     = APScheduler.lookup_job (job_id_for_task other) (jobs w)) /\
  db (exec (cancel_task_schedule task_id) w) = db w /\
  jobs (exec (cancel_task_schedule task_id) (exec (cancel_task_schedule task_id) w))
    = jobs (exec (cancel_task_schedule task_id) w).
Proof.
  unfold result, exec. rewrite !cancel_task_schedule_run. cbn [fst snd jobs db].
  repeat split.
  - apply lookup_delete_rows.
  - intros other Hne. apply lookup_job_delete_other.
    intros H. apply Hne. apply (inj pretty). by apply (inj (String.append "task-")) in H.
  - apply delete_rows_twice.
Qed.

(** ** The schedule of a job *)

(** A job keeps the grid of its task whenever it is scheduled: it fires at
    the instants [start_at + k * max(1, freq_days)] days that are not before
    the time of scheduling and not after [start_at + max(0, remind_for_days)]
    days.  Rescheduling late skips the instants already past. *)
Theorem schedule_task_fire_grid (task : Task.t) (w : World) :
  exists j,
    APScheduler.lookup_job (job_id_for_task (Task.id task))
      (jobs (exec (schedule_task task) w)) = Some j /\
    forall t,
      APScheduler.fires j t <->
      exists k, 0 <= k /\
        t = instant (Task.start_at task) + k * timedelta_days (Z.max 1 (Task.freq_days task)) /\
        clock w <= t /\
        t <= instant (Task.start_at task) + timedelta_days (Z.max 0 (Task.remind_for_days task)).
Proof.
  exists (scheduled_job task (clock w)). split; [apply schedule_task_lookup|].
  intros t. apply scheduled_job_fires.
Qed.

Section RunTimes.
Import APScheduler.

(** The run times from [t0] on, as a list: one every [interval] up to
    [end_date], as far as the fuel goes. *)
Lemma run_times_grid (tr : IntervalTrigger) (e : Z) (fuel : nat) (t0 : Z) :
  0 < interval tr -> end_date tr = Some e -> t0 <= e ->
  run_times tr fuel (Some t0) =
  map (fun k => t0 + Z.of_nat k * interval tr)
      (seq 0 (Nat.min fuel (Z.to_nat ((e - t0) / interval tr + 1)))).
Proof.
  intros Hiv He. revert t0. induction fuel as [|n IH]; intros t0 Ht0; [reflexivity|].
  cbn [run_times]. unfold get_next_fire_time at 1. rewrite He.
  pose proof (Z.div_pos (e - t0) (interval tr)) as Hq0.
  destruct (Z.leb_spec (t0 + interval tr) e) as [Hle|Hgt].
  - rewrite IH by lia.
    replace ((e - t0) / interval tr + 1)
      with (Z.succ ((e - (t0 + interval tr)) / interval tr + 1)).
    2:{ replace (e - t0) with ((e - (t0 + interval tr)) + 1 * interval tr) by lia.
        rewrite Z.div_add by lia. lia. }
    rewrite Z2Nat.inj_succ
      by (pose proof (Z.div_pos (e - (t0 + interval tr)) (interval tr)); lia).
    rewrite <- Nat.succ_min_distr. cbn [seq map].
    change (Z.of_nat 0) with 0. rewrite Z.mul_0_l, Z.add_0_r. f_equal.
    rewrite <- seq_shift, map_map. apply map_ext. intros k. lia.
  - rewrite (Z.div_small (e - t0)) by lia. change (Z.to_nat (0 + 1)) with 1%nat.
    replace (Nat.min (S n) 1) with 1%nat by lia.
    replace (run_times tr n None) with (@nil Z) by (by destruct n).
    cbn [seq map]. change (Z.of_nat 0) with 0. by rewrite Z.mul_0_l, Z.add_0_r.
Qed.

End RunTimes.

(** A task scheduled no later than its [start_at] gets
    [max(0, remind_for_days) // max(1, freq_days) + 1] reminders: the run
    times of its job are [start_at], one period later, and so on, that many
    in all, however much longer the engine runs. *)
Theorem schedule_task_number_of_fires (task : Task.t) (w : World) (fuel : nat) :
  clock w <= instant (Task.start_at task) ->
  (Z.to_nat (Z.max 0 (Task.remind_for_days task) / Z.max 1 (Task.freq_days task)) < fuel)%nat ->
  APScheduler.fire_list (scheduled_job task (clock w)) fuel
  = map (fun k => instant (Task.start_at task)
                  + Z.of_nat k * timedelta_days (Z.max 1 (Task.freq_days task)))
        (seq 0 (S (Z.to_nat (Z.max 0 (Task.remind_for_days task)
                             / Z.max 1 (Task.freq_days task))))) /\
  length (APScheduler.fire_list (scheduled_job task (clock w)) fuel)
  = S (Z.to_nat (Z.max 0 (Task.remind_for_days task) / Z.max 1 (Task.freq_days task))).
Proof.
  intros Hnow Hfuel.
  set (s := instant (Task.start_at task)) in *.
  set (F := Z.max 1 (Task.freq_days task)) in *.
  set (R := Z.max 0 (Task.remind_for_days task)) in *.
  pose proof usec_per_day_pos as Hday.
  assert (HF : 1 <= F) by (unfold F; lia).
  assert (HR : 0 <= R) by (unfold R; lia).
  assert (Hlist :
    APScheduler.fire_list (scheduled_job task (clock w)) fuel
    = map (fun k => s + Z.of_nat k * timedelta_days F) (seq 0 (S (Z.to_nat (R / F))))).
  { unfold APScheduler.fire_list.
    pose proof (scheduled_job_next_run task (clock w)) as Hnext. cbv zeta in Hnext.
    fold s F R in Hnext.
    assert (Hfi : first_index (F * usec_per_day) s (clock w) = 0).
    { unfold first_index. destruct (Z.ltb_spec (clock w) s); [reflexivity|].
      replace (clock w - s) with 0 by lia. apply ceil_div_0. }
    rewrite Hfi, Z.mul_0_l, Z.add_0_r in Hnext.
    rewrite (proj2 (Z.leb_le s (s + R * usec_per_day))) in Hnext by nia.
    rewrite Hnext.
    rewrite (run_times_grid _ (s + R * usec_per_day));
      rewrite ?scheduled_job_trigger; cbn [APScheduler.interval APScheduler.end_date];
      fold s F R; [ | nia | reflexivity | nia].
    replace (s + R * usec_per_day - s) with (R * usec_per_day) by lia.
    rewrite Z.div_mul_cancel_r by lia.
    rewrite Z2Nat.inj_add by (try apply Z.div_pos; lia).
    rewrite Nat.add_1_r, Nat.min_r by lia. reflexivity. }
  split; [exact Hlist|]. rewrite Hlist, length_map, length_seq. reflexivity.
Qed.

Lemma schedule_task_number_of_fires_witness :
  length (APScheduler.fire_list
            (scheduled_job (Sample.task "open" 2 5) (Sample.jan1_0900 - 300 * usec_per_second))
            20) = 3%nat.
Proof.
  refine (proj2 (schedule_task_number_of_fires (Sample.task "open" 2 5)
                   (Sample.world (Sample.task "open" 2 5) ∅ []) 20 _ _)).
  - by vm_compute.
  - vm_compute. lia.
Defined.

(** ** Dispatch *)

Lemma send_task_ping_missing_run env task_id w :
  tasks (db w) !! task_id = None ->
  _send_task_ping env task_id w = (Return (false, "Task not found"), w).
Proof.
  intros Ht. unfold _send_task_ping.
  cbv beta iota delta [bind try_finally SessionLocal close ret].
  by rewrite Ht.
Qed.

(** A dispatch for a task that is not in the database returns
    [(False, "Task not found")] and changes nothing: no POST, and a job left
    under the id stays in the job store. *)
Theorem send_task_ping_missing_task (env : Env) (task_id : Z) (w : World) :
  tasks (db w) !! task_id = None ->
  result (_send_task_ping env task_id) w = Return (false, "Task not found") /\
  exec (_send_task_ping env task_id) w = w.
Proof.
  intros Ht. unfold result, exec. by rewrite (send_task_ping_missing_run env task_id w Ht).
Qed.

Lemma send_task_ping_missing_task_witness :
  _send_task_ping Sample.env_up 9 (Sample.world (Sample.task "open" 1 3) ∅ Sample.stale_jobs)
  = (Return (false, "Task not found"),
     Sample.world (Sample.task "open" 1 3) ∅ Sample.stale_jobs).
Proof.
  destruct (send_task_ping_missing_task Sample.env_up 9
              (Sample.world (Sample.task "open" 1 3) ∅ Sample.stale_jobs))
    as [Hres Hw]; [by vm_compute |].
  unfold result in Hres. unfold exec in Hw.
  destruct (_send_task_ping Sample.env_up 9
              (Sample.world (Sample.task "open" 1 3) ∅ Sample.stale_jobs)) as [r w'].
  cbn [fst snd] in Hres, Hw. by rewrite Hres, Hw.
Defined.

(** When the transport call returns [resp] for an open task, the dispatch
    returns [(True, str(resp))]; the one POST goes to the chat id of the
    assignee with the rendered message, and the job store and the database
    are unchanged. *)
Theorem send_task_ping_delivered
    (env : Env) (task_id : Z) (t : Task.t) (c : Contact.t) (msg : string)
    (resp : ApiReply) (w : World) :
  tasks (db w) !! task_id = Some t ->
  closed (Task.status t) = false ->
  find (fun c => bool_decide (Contact.id c = Task.assignee_id t)) (contacts (db w)) = Some c ->
  result (render_message env t (Some c)) w = Return msg ->
  result (api_send_text env (Contact.chat_id c) msg) w = Return resp ->
  _send_task_ping env task_id w =
  (Return (true, str_reply env resp),
   {| db := db w; jobs := jobs w; clock := clock w;
      trace := trace w ++ [EvPost (Contact.chat_id c) msg] |}).
Proof.
  intros Ht Hc Ha Hr Hs.
  rewrite (send_task_ping_open_run env task_id t w Ht Hc). cbv zeta.
  rewrite Ha, Hr, Hs. by rewrite api_send_text_world.
Qed.

Lemma send_task_ping_delivered_witness :
  result (_send_task_ping Sample.env_up 7)
    (Sample.world (Sample.task "in_progress" 1 3) ∅ Sample.stale_jobs)
  = Return (true, "{'sent': True}").
Proof.
  unfold result.
  rewrite (send_task_ping_delivered Sample.env_up 7 (Sample.task "in_progress" 1 3)
             Sample.alice
             ("Hi Alice, what's the update on the task " +:+ dquote
              +:+ "Quarterly report" +:+ dquote +:+ "? (Due: N/A)")
             (JsonBody "{'sent': True}")
             (Sample.world (Sample.task "in_progress" 1 3) ∅ Sample.stale_jobs));
    by vm_compute.
Defined.

(** [api_send_text] on an answer of the server: a status from 400 to 599
    raises [HTTPError]; any other status, 3xx included, returns the parsed
    body, or the raw text when the body is not JSON.  Either way exactly one
    POST is recorded. *)
Theorem api_send_text_status (env : Env) (chat_id text : string) (r : Response) (w : World) :
  requests_post env (length (posts (trace w))) (API_BASE env +:+ API_SEND env)
                chat_id text (API_SESSION env) = Return r ->
  (if (400 <=? status_code r) && (status_code r <? 600)
   then exists msg, result (api_send_text env chat_id text) w = Raise (Exn "HTTPError" msg)
   else result (api_send_text env chat_id text) w
        = Return (match json r with
                  | Some j => JsonBody j
                  | None => RawBody (response_text r)
                  end)) /\
  posts (trace (exec (api_send_text env chat_id text) w)) = posts (trace w) ++ [(chat_id, text)].
Proof.
  intros Hp. split.
  - unfold result, api_send_text, emit. cbn zeta. rewrite Hp. unfold raise_for_status.
    destruct (Z.leb_spec 400 (status_code r)), (Z.ltb_spec (status_code r) 500),
      (Z.leb_spec 500 (status_code r)), (Z.ltb_spec (status_code r) 600);
      cbn [andb fst]; try lia; eauto; by destruct (json r).
  - rewrite api_send_text_world. cbn [trace]. unfold posts. rewrite omap_app. reflexivity.
Qed.

Lemma api_send_text_status_witness :
  exists msg,
    result (api_send_text Sample.env_busy "919876543210@c.us" "ping")
      (Sample.world (Sample.task "open" 1 3) ∅ []) = Raise (Exn "HTTPError" msg).
Proof.
  exact (proj1 (api_send_text_status Sample.env_busy "919876543210@c.us" "ping"
                  {| status_code := 503; reason := "Service Unavailable";
                     url := "http://localhost:3000/api/sendText";
                     response_text := "busy"; json := None |}
                  (Sample.world (Sample.task "open" 1 3) ∅ []) eq_refl)).
Defined.

(** ** Status changes and deletion *)

(** [update_task_status] on a task that does not exist returns [False] and
    changes nothing: no audit comment is written and no job is touched. *)
Theorem update_task_status_missing_task (task_id : Z) (new_status : string) (w : World) :
  tasks (db w) !! task_id = None ->
  update_task_status task_id new_status w = (Return false, w).
Proof.
  intros Ht. unfold update_task_status.
  cbv beta iota delta [bind try_finally SessionLocal close ret].
  by rewrite Ht.
Qed.

Lemma update_task_status_missing_task_witness :
  update_task_status 9 "completed" (Sample.world (Sample.task "open" 1 3) ∅ Sample.stale_jobs)
  = (Return false, Sample.world (Sample.task "open" 1 3) ∅ Sample.stale_jobs).
Proof.
  apply update_task_status_missing_task. by vm_compute.
Defined.

(** Once [update_task_status] has set a task to [completed] or [cancelled],
    a dispatch for it (a job already running, or "Remind now") sends nothing:
    it returns [(False, "Task is <status>; not sending")] and no POST is
    made. *)
Theorem closed_task_is_not_pinged (env : Env) (task_id : Z) (new_status : string)
    (t : Task.t) (w : World) :
  tasks (db w) !! task_id = Some t ->
  new_status = "completed" \/ new_status = "cancelled" ->
  result (_send_task_ping env task_id) (exec (update_task_status task_id new_status) w)
    = Return (false, "Task is " +:+ new_status +:+ "; not sending") /\
  posts (trace (exec (_send_task_ping env task_id)
                  (exec (update_task_status task_id new_status) w)))
    = posts (trace w).
Proof.
  intros Ht Hs. apply closed_iff in Hs.
  set (w1 := exec (update_task_status task_id new_status) w).
  assert (Ht1 : tasks (db w1) !! task_id = Some (Task.set_status new_status t)).
  { unfold w1, exec. rewrite (update_task_status_run task_id new_status t w Ht).
    cbv zeta. cbn [snd]. rewrite Hs. unfold exec. rewrite cancel_task_schedule_run.
    cbn [snd db tasks with_task_comments with_tasks]. apply lookup_insert_eq. }
  assert (Htr1 : posts (trace w1) = posts (trace w)).
  { unfold w1, exec. rewrite (update_task_status_run task_id new_status t w Ht).
    cbv zeta. cbn [snd]. rewrite Hs. unfold exec. rewrite cancel_task_schedule_run.
    cbn [snd trace]. unfold posts. rewrite !omap_app. cbn. by rewrite !app_nil_r. }
  unfold result, exec at 1.
  rewrite (send_task_ping_closed_run env task_id _ w1 Ht1 Hs). cbn [fst snd trace].
  split; [reflexivity|].
  unfold posts in *. rewrite omap_app. cbn. by rewrite app_nil_r.
Qed.

Lemma closed_task_is_not_pinged_witness :
  result (_send_task_ping Sample.env_up 7)
    (exec (update_task_status 7 "completed")
       (Sample.world (Sample.task "open" 1 3) ∅ Sample.stale_jobs))
  = Return (false, "Task is completed; not sending").
Proof.
  refine (proj1 (closed_task_is_not_pinged Sample.env_up 7 "completed"
                   (Sample.task "open" 1 3)
                   (Sample.world (Sample.task "open" 1 3) ∅ Sample.stale_jobs) _ _)).
  - by vm_compute.
  - by left.
Defined.

Lemma delete_task_run task_id w :
  delete_task task_id w =
  match tasks (db w) !! task_id with
  | Some _ =>
      (Return true,
       {| db := with_tasks
                  (with_task_comments (db w)
                     (filter (fun c => TaskComment.task_id c <> task_id) (task_comments (db w))))
                  (delete task_id (tasks (db w)));
          jobs := APScheduler.delete_rows (job_id_for_task task_id) (jobs w);
          clock := clock w;
          trace := trace w ++ [EvRemoveJob (job_id_for_task task_id);
                               EvDeleteComments task_id; EvDeleteTask task_id; EvCommit] |})
  | None =>
      (Return false,
       {| db := db w;
          jobs := APScheduler.delete_rows (job_id_for_task task_id) (jobs w);
          clock := clock w;
          trace := trace w ++ [EvRemoveJob (job_id_for_task task_id)] |})
  end.
Proof.
  unfold delete_task. cbv beta iota delta [bind]. rewrite cancel_task_schedule_run.
  cbv beta iota delta [try_finally bind SessionLocal close ret emit commit].
  cbn [db jobs clock trace].
  destruct (tasks (db w) !! task_id); [|reflexivity].
  cbn [db jobs clock trace]. by rewrite <- !app_assoc.
Qed.

(** After [delete_task], whether or not the task existed: a second
    [delete_task] returns [False], a dispatch for the id returns
    [(False, "Task not found")] and posts nothing, and no comment of the task
    is left. *)
Theorem delete_task_then (env : Env) (task_id : Z) (w : World) :
  result (delete_task task_id) (exec (delete_task task_id) w) = Return false /\
  result (_send_task_ping env task_id) (exec (delete_task task_id) w)
    = Return (false, "Task not found") /\
  posts (trace (exec (_send_task_ping env task_id) (exec (delete_task task_id) w)))
    = posts (trace w) /\
  (is_Some (tasks (db w) !! task_id) ->
   Forall (fun c => TaskComment.task_id c <> task_id)
          (task_comments (db (exec (delete_task task_id) w)))).
Proof.
  set (w1 := exec (delete_task task_id) w).
  assert (Ht1 : tasks (db w1) !! task_id = None).
  { unfold w1, exec. rewrite delete_task_run.
    destruct (tasks (db w) !! task_id) eqn:Ht; cbn [snd db tasks with_tasks];
      [apply lookup_delete_eq | exact Ht]. }
  assert (Hp1 : posts (trace w1) = posts (trace w)).
  { unfold w1, exec. rewrite delete_task_run.
    destruct (tasks (db w) !! task_id); cbn [snd trace]; unfold posts;
      rewrite omap_app; cbn; by rewrite app_nil_r. }
  split; [|split; [|split]].
  - unfold result. rewrite delete_task_run, Ht1. reflexivity.
  - unfold result. by rewrite (send_task_ping_missing_run env task_id w1 Ht1).
  - unfold exec at 1. by rewrite (send_task_ping_missing_run env task_id w1 Ht1).
  - intros [t Ht]. unfold w1, exec. rewrite delete_task_run, Ht.
    cbn [snd db task_comments with_tasks with_task_comments].
    apply Forall_forall. intros c Hc. by apply list_elem_of_filter in Hc as [? _].
Qed.

(** ** Contacts *)

Lemma append_length (a b : string) :
  String.length (a +:+ b) = (String.length a + String.length b)%nat.
Proof. induction a as [|c a IH]; [reflexivity|]. simpl. by rewrite IH. Qed.

Lemma append_cancel_r (a b s : string) : a +:+ s = b +:+ s -> a = b.
Proof.
  revert b. induction a as [|c a IH]; intros [|c' b] H.
  - reflexivity.
  - apply (f_equal String.length) in H. rewrite !append_length in H. simpl in H. lia.
  - apply (f_equal String.length) in H. rewrite !append_length in H. simpl in H. lia.
  - cbn in H. injection H as -> H. f_equal. by apply IH.
Qed.

Lemma keep_digits_all_digits (d : string) : all_digits d = true -> keep_digits d = d.
Proof.
  induction d as [|c d IH]; [reflexivity|]. cbn [all_digits keep_digits].
  intros [Hc Hd]%andb_true_iff. unfold isdigit.
  rewrite Hc. cbn [orb]. by rewrite IH.
Qed.

(** The chat id of an E.164 number, a plus sign and decimal digits, is the
    digits followed by ["@c.us"], and two such numbers with the same chat id
    are the same number. *)
Theorem chat_id_from_e164_digits (d d' : string) :
  all_digits d = true ->
  chat_id_from_e164 ("+" +:+ d) = d +:+ "@c.us" /\
  (all_digits d' = true ->
   chat_id_from_e164 ("+" +:+ d) = chat_id_from_e164 ("+" +:+ d') -> d = d').
Proof.
  intros Hd.
  assert (Hplus : forall x, all_digits x = true -> chat_id_from_e164 ("+" +:+ x) = x +:+ "@c.us").
  { intros x Hx. unfold chat_id_from_e164. change ("+" +:+ x) with (String "+" x).
    cbn [keep_digits]. change (isdigit "+") with false. cbv iota.
    by rewrite keep_digits_all_digits. }
  split; [by apply Hplus|].
  intros Hd' H. rewrite !Hplus in H by done. by apply append_cancel_r in H.
Qed.

Lemma chat_id_from_e164_digits_witness :
  chat_id_from_e164 "+919876543210" = "919876543210@c.us".
Proof. exact (proj1 (chat_id_from_e164_digits "919876543210" "1" eq_refl)). Defined.

(** [upsert_contact] with a phone number that does not parse, or that parses
    to an invalid number, raises [ValueError("Invalid phone number")] and
    changes nothing. *)
Theorem upsert_contact_invalid_phone (env : Env) (name phone tags note region : string)
    (w : World) :
  (forall num, phonenumbers_parse env phone region = Return num -> is_valid_number num = false) ->
  upsert_contact env name phone tags note region w
  = (Raise (Exn "ValueError" "Invalid phone number"), w).
Proof.
  intros Hbad. unfold upsert_contact, to_e164.
  destruct (phonenumbers_parse env phone region) as [num|e]; [|reflexivity].
  by rewrite (Hbad num eq_refl).
Qed.

Lemma upsert_contact_invalid_phone_witness :
  upsert_contact Sample.env_up "Bob" "12" "x" "y" "IN"
    (Sample.world (Sample.task "open" 1 3) ∅ [])
  = (Raise (Exn "ValueError" "Invalid phone number"),
     Sample.world (Sample.task "open" 1 3) ∅ []).
Proof.
  apply upsert_contact_invalid_phone. intros num H. by vm_compute in H.
Defined.

(** The insert branch of [upsert_contact]. *)
Lemma upsert_contact_insert_run env name phone tags note region e164 w :
  to_e164 env phone region = Some e164 ->
  e164 <> EmptyString ->
  chat_id_from_e164 e164 ∉ map Contact.chat_id (contacts (db w)) ->
  upsert_contact env name phone tags note region w =
  let c' :=
    {| Contact.id := next_id (map Contact.id (contacts (db w)));
       Contact.name := name;
       Contact.phone_raw := phone;
       Contact.phone_e164 := e164;
       Contact.chat_id := chat_id_from_e164 e164;
       Contact.tags := py_or tags EmptyString;
       Contact.note := py_or note EmptyString |} in
  (Return c',
   {| db := with_contacts (db w) (contacts (db w) ++ [c']);
      jobs := jobs w; clock := clock w; trace := trace w ++ [EvCommit] |}).
Proof.
  intros He Hne Hnew. unfold upsert_contact. rewrite He.
  rewrite decide_False by exact Hne.
  cbv beta iota delta [try_finally bind SessionLocal close ret lift commit].
  rewrite (filter_absent_key Contact.chat_id _ _ Hnew). reflexivity.
Qed.

Lemma NoDup_map_snoc {A K} (key : A -> K) (l : list A) (x : A) :
  NoDup (map key l) -> key x ∉ map key l -> NoDup (map key (l ++ [x])).
Proof.
  intros Hnd Hx. rewrite map_app. cbn [map]. apply NoDup_app. split; [exact Hnd|].
  split; [|apply NoDup_singleton].
  intros k Hk Hk'. apply list_elem_of_singleton in Hk' as ->. by apply Hx.
Qed.

(** A valid phone number whose chat id is not in the table adds one contact:
    the new row gets an id no row has, the name and phone as given, and an
    empty string for tags or note left empty; the rows already there are kept
    in place and the table still satisfies its uniqueness constraints. *)
Theorem upsert_contact_new (env : Env) (name phone tags note region e164 : string)
    (w : World) :
  contacts_ok (contacts (db w)) ->
  to_e164 env phone region = Some e164 ->
  e164 <> EmptyString ->
  chat_id_from_e164 e164 ∉ map Contact.chat_id (contacts (db w)) ->
  exists c',
    result (upsert_contact env name phone tags note region) w = Return c' /\
    contacts (db (exec (upsert_contact env name phone tags note region) w))
      = contacts (db w) ++ [c'] /\
    (Contact.id c' ∉ map Contact.id (contacts (db w))) /\
    Contact.name c' = name /\ Contact.phone_raw c' = phone /\
    Contact.phone_e164 c' = e164 /\
    Contact.chat_id c' = chat_id_from_e164 e164 /\
    Contact.tags c' = tags /\ Contact.note c' = note /\
    contacts_ok (contacts (db (exec (upsert_contact env name phone tags note region) w))).
Proof.
  intros [Hids Hchats] He Hne Hnew. unfold result, exec.
  rewrite (upsert_contact_insert_run env name phone tags note region e164 w He Hne Hnew).
  cbv zeta. cbn [fst snd db contacts with_contacts].
  eexists. split; [reflexivity|]. cbn [Contact.id Contact.name Contact.phone_raw
    Contact.phone_e164 Contact.chat_id Contact.tags Contact.note].
  assert (Hor : forall a, py_or a EmptyString = a).
  { intros a. unfold py_or. by destruct (decide (a = EmptyString)). }
  repeat split; try apply Hor.
  - apply next_id_fresh.
  - apply NoDup_map_snoc; [exact Hids | apply next_id_fresh].
  - by apply NoDup_map_snoc.
Qed.

Lemma upsert_contact_new_witness :
  exists c',
    result (upsert_contact Sample.env_down "Alice" "98765 43210" EmptyString "lead" "IN")
      {| db := {| tasks := ∅; contacts := []; task_comments := []; settings := ∅ |};
         jobs := []; clock := 0; trace := [] |} = Return c'
    /\ Contact.id c' = 1.
Proof.
  destruct (upsert_contact_new Sample.env_down "Alice" "98765 43210" EmptyString "lead" "IN"
              "+919876543210"
              {| db := {| tasks := ∅; contacts := []; task_comments := []; settings := ∅ |};
                 jobs := []; clock := 0; trace := [] |})
    as (c' & Hres & Hcs & _).
  - split; cbn; apply NoDup_nil_2.
  - by vm_compute.
  - discriminate.
  - cbn. apply not_elem_of_nil.
  - exists c'. split; [exact Hres|].
    vm_compute in Hres. by injection Hres as <-.
Defined.

Lemma py_or_idem (a x : string) : py_or a (py_or a x) = py_or a x.
Proof. unfold py_or. by destruct (decide (a = EmptyString)). Qed.

Lemma replace_row_same {A K} `{EqDecision K} (key : A -> K) (l : list A) (x : A) :
  NoDup (map key l) -> x ∈ l ->
  map (fun r => if bool_decide (key r = key x) then x else r) l = l.
Proof.
  intros Hnd Hx. rewrite <- (map_id l) at 2. apply map_ext_in. intros r Hr.
  case_bool_decide as Hk; [|reflexivity].
  symmetry. apply (key_determines_row key l x r Hnd Hx); [by apply list_elem_of_In | exact Hk].
Qed.

(** What a call of [upsert_contact] leaves, on a table that satisfies its
    constraints: either [ValueError] and an unchanged world, or a returned
    row that is in the table, carries the arguments, and is the row of its
    chat id; the constraints still hold. *)
Lemma upsert_contact_cases env name phone tags note region w :
  contacts_ok (contacts (db w)) ->
  upsert_contact env name phone tags note region w
    = (Raise (Exn "ValueError" "Invalid phone number"), w)
  \/ exists c e164,
       to_e164 env phone region = Some e164 /\ e164 <> EmptyString /\
       result (upsert_contact env name phone tags note region) w = Return c /\
       c ∈ contacts (db (exec (upsert_contact env name phone tags note region) w)) /\
       contacts_ok (contacts (db (exec (upsert_contact env name phone tags note region) w))) /\
       Contact.chat_id c = chat_id_from_e164 e164 /\
       Contact.phone_raw c = phone /\ Contact.phone_e164 c = e164 /\
       py_or name (Contact.name c) = Contact.name c /\
       py_or tags (Contact.tags c) = Contact.tags c /\
       py_or note (Contact.note c) = Contact.note c.
Proof.
  intros Hok. pose proof Hok as [Hids Hchats].
  destruct (to_e164 env phone region) as [e164|] eqn:He;
    [|left; unfold upsert_contact; by rewrite He].
  destruct (decide (e164 = EmptyString)) as [->|Hne];
    [left; unfold upsert_contact; by rewrite He|].
  right.
  destruct (decide (chat_id_from_e164 e164 ∈ map Contact.chat_id (contacts (db w))))
    as [Hin|Hnew].
  - apply list_elem_of_In, in_map_iff in Hin as (c & Hcid & Hc). apply list_elem_of_In in Hc.
    unfold result, exec.
    rewrite (upsert_contact_update_run env name phone tags note region e164 c w
               Hok He Hne Hc Hcid).
    cbv zeta. cbn [fst snd db contacts with_contacts].
    eexists _, e164. split; [reflexivity|]. split; [exact Hne|]. split; [reflexivity|].
    cbn [Contact.name Contact.tags Contact.note Contact.chat_id Contact.phone_raw
         Contact.phone_e164].
    repeat split; try apply py_or_idem; try exact Hcid.
    + by apply (replace_row_elem Contact.id).
    + rewrite (replace_row_keys Contact.id) by reflexivity. exact Hids.
    + rewrite (replace_row_column Contact.id Contact.chat_id);
        [exact Hchats | exact Hids | exact Hc | reflexivity].
  - unfold result, exec.
    rewrite (upsert_contact_insert_run env name phone tags note region e164 w He Hne Hnew).
    cbv zeta. cbn [fst snd db contacts with_contacts].
    eexists _, e164. split; [reflexivity|]. split; [exact Hne|]. split; [reflexivity|].
    cbn [Contact.name Contact.tags Contact.note Contact.chat_id Contact.phone_raw
         Contact.phone_e164].
    repeat split; try apply py_or_idem.
    + apply elem_of_app. right. apply list_elem_of_singleton. reflexivity.
    + apply NoDup_map_snoc; [exact Hids | apply next_id_fresh].
    + by apply NoDup_map_snoc.
    + unfold py_or. by destruct (decide (name = EmptyString)) as [->|].
Qed.

(** [upsert_contact] keeps the uniqueness constraints of the table whatever
    its arguments, and on such a table it never fails with
    [MultipleResultsFound]: it returns a row of the table, or raises
    [ValueError("Invalid phone number")] and leaves the world as it was. *)
Theorem upsert_contact_keeps_constraints (env : Env) (name phone tags note region : string)
    (w : World) :
  contacts_ok (contacts (db w)) ->
  contacts_ok (contacts (db (exec (upsert_contact env name phone tags note region) w))) /\
  match result (upsert_contact env name phone tags note region) w with
  | Return c =>
      c ∈ contacts (db (exec (upsert_contact env name phone tags note region) w))
  | Raise e =>
      e = Exn "ValueError" "Invalid phone number" /\
      exec (upsert_contact env name phone tags note region) w = w
  end.
Proof.
  intros Hok.
  destruct (upsert_contact_cases env name phone tags note region w Hok)
    as [Hraise | (c & e164 & _ & _ & Hres & Hc & Hok' & _)].
  - unfold result, exec. rewrite Hraise. cbn [fst snd]. split; [exact Hok | by split].
  - rewrite Hres. by split.
Qed.

Lemma upsert_contact_keeps_constraints_witness :
  contacts_ok
    (contacts (db (exec (upsert_contact Sample.env_up "Al" "98765 43210" "x" "y" "IN")
                     (Sample.world (Sample.task "open" 1 3) ∅ [])))).
Proof.
  refine (proj1 (upsert_contact_keeps_constraints Sample.env_up "Al" "98765 43210" "x" "y" "IN"
                   (Sample.world (Sample.task "open" 1 3) ∅ []) _)).
  split; cbn; apply NoDup_singleton.
Defined.

(** Saving the same contact form twice is the same as saving it once: the
    second [upsert_contact] returns the same outcome and leaves the table as
    the first one left it. *)
Theorem upsert_contact_twice (env : Env) (name phone tags note region : string) (w : World) :
  contacts_ok (contacts (db w)) ->
  result (upsert_contact env name phone tags note region)
    (exec (upsert_contact env name phone tags note region) w)
  = result (upsert_contact env name phone tags note region) w /\
  contacts (db (exec (upsert_contact env name phone tags note region)
                  (exec (upsert_contact env name phone tags note region) w)))
  = contacts (db (exec (upsert_contact env name phone tags note region) w)).
Proof.
  intros Hok.
  destruct (upsert_contact_cases env name phone tags note region w Hok)
    as [Hraise | (c & e164 & He & Hne & Hres & Hc & Hok' & Hcid & Hraw & He164 & Hn & Ht & Hno)].
  - unfold result, exec. rewrite !Hraise. cbn [fst snd]. by rewrite !Hraise.
  - rewrite Hres.
    set (w1 := exec (upsert_contact env name phone tags note region) w) in *.
    unfold result, exec at 1.
    rewrite (upsert_contact_update_run env name phone tags note region e164 c w1
               Hok' He Hne Hc Hcid).
    cbv zeta. cbn [fst snd db contacts with_contacts].
    rewrite Hn, Ht, Hno, <- Hraw, <- He164. destruct Hok' as [Hids' _].
    replace {| Contact.id := Contact.id c; Contact.name := Contact.name c;
               Contact.phone_raw := Contact.phone_raw c;
               Contact.phone_e164 := Contact.phone_e164 c;
               Contact.chat_id := Contact.chat_id c; Contact.tags := Contact.tags c;
               Contact.note := Contact.note c |} with c by (by destruct c).
    split; [reflexivity|]. by apply (replace_row_same Contact.id).
Qed.

Lemma upsert_contact_twice_witness :
  contacts (db (exec (upsert_contact Sample.env_up "Al" "98765 43210" "x" EmptyString "IN")
                  (exec (upsert_contact Sample.env_up "Al" "98765 43210" "x" EmptyString "IN")
                     (Sample.world (Sample.task "open" 1 3) ∅ []))))
  = [{| Contact.id := 1; Contact.name := "Al"; Contact.phone_raw := "98765 43210";
        Contact.phone_e164 := "+919876543210"; Contact.chat_id := "919876543210@c.us";
        Contact.tags := "x"; Contact.note := "lead" |}].
Proof.
  rewrite (proj2 (upsert_contact_twice Sample.env_up "Al" "98765 43210" "x" EmptyString "IN"
                    (Sample.world (Sample.task "open" 1 3) ∅ [])
                    (conj (NoDup_singleton 1) (NoDup_singleton "919876543210@c.us")))).
  by vm_compute.
Defined.

(** ** Settings and comments *)

(** [get_setting] after [set_setting]: the key reads back the value just
    written, whatever the default; every other key reads as before; a key
    that was never written reads as the default.  [set_setting] touches
    nothing but the settings. *)
Theorem set_setting_get_setting (key value key' default : string) (w : World) :
  result (set_setting key value) w = Return tt /\
  result (get_setting key default) (exec (set_setting key value) w) = Return value /\
  (key' <> key ->
   result (get_setting key' default) (exec (set_setting key value) w)
   = result (get_setting key' default) w) /\
  (settings (db w) !! key' = None -> result (get_setting key' default) w = Return default) /\
  tasks (db (exec (set_setting key value) w)) = tasks (db w) /\
  contacts (db (exec (set_setting key value) w)) = contacts (db w) /\
  task_comments (db (exec (set_setting key value) w)) = task_comments (db w) /\
  jobs (exec (set_setting key value) w) = jobs w.
Proof.
  assert (Hrun : set_setting key value w =
                 (Return tt,
                  {| db := with_settings (db w) (<[key := value]> (settings (db w)));
                     jobs := jobs w; clock := clock w; trace := trace w ++ [EvCommit] |})).
  { unfold set_setting.
    cbv beta iota delta [try_finally bind SessionLocal close ret commit].
    by destruct (settings (db w) !! key). }
  unfold result, exec. rewrite Hrun, !get_setting_run.
  cbn [fst snd db settings with_settings tasks contacts task_comments jobs].
  repeat split.
  - by rewrite lookup_insert_eq.
  - intros Hne. by rewrite lookup_insert_ne.
  - by intros ->.
Qed.

Lemma set_setting_get_setting_witness :
  result (get_setting "message_template" DEFAULT_TEMPLATE)
    (exec (set_setting "other" "x") (Sample.world (Sample.task "open" 1 3) ∅ []))
  = Return DEFAULT_TEMPLATE.
Proof.
  rewrite (proj1 (proj2 (proj2 (set_setting_get_setting "other" "x" "message_template"
                                  DEFAULT_TEMPLATE
                                  (Sample.world (Sample.task "open" 1 3) ∅ []))))
             ltac:(discriminate)).
  exact (proj1 (proj2 (proj2 (proj2
           (set_setting_get_setting "other" "x" "message_template" DEFAULT_TEMPLATE
              (Sample.world (Sample.task "open" 1 3) ∅ []))))) eq_refl).
Defined.

Lemma lstrip_head (s : string) :
  match lstrip s with
  | EmptyString => True
  | String c _ => isspace c = false
  end.
Proof.
  induction s as [|c s IH]; [exact I|]. cbn [lstrip].
  destruct (isspace c) eqn:Hc; [exact IH | exact Hc].
Qed.

Lemma lstrip_fixed (s : string) :
  match s with EmptyString => True | String c _ => isspace c = false end ->
  lstrip s = s.
Proof. destruct s as [|c s]; [reflexivity|]. cbn [lstrip]. by intros ->. Qed.

Lemma rstrip_head (s : string) :
  match s with EmptyString => True | String c _ => isspace c = false end ->
  match rstrip s with EmptyString => True | String c _ => isspace c = false end.
Proof.
  destruct s as [|c s]; [done|]. intros Hc. cbn [rstrip].
  destruct (rstrip s); [by rewrite Hc | exact Hc].
Qed.

Lemma rstrip_idem (s : string) : rstrip (rstrip s) = rstrip s.
Proof.
  induction s as [|c s IH]; [reflexivity|]. cbn [rstrip].
  destruct (rstrip s) as [|c' r'] eqn:Hr.
  - destruct (isspace c) eqn:Hc; [reflexivity|]. cbn [rstrip]. by rewrite Hc.
  - change (rstrip (String c (String c' r')))
      with (match rstrip (String c' r') with
            | EmptyString => if isspace c then EmptyString else String c EmptyString
            | String c'' r'' => String c (String c'' r'')
            end).
    by rewrite IH.
Qed.

(** [strip] is idempotent: a stripped string has no white space left at
    either end. *)
Lemma strip_idem (s : string) : strip (strip s) = strip s.
Proof.
  unfold strip. rewrite (lstrip_fixed (rstrip (lstrip s))).
  - apply rstrip_idem.
  - apply rstrip_head, lstrip_head.
Qed.

(** [add_comment] appends one comment to the log and touches nothing else:
    the comment is for the given task, its author is ["admin"] when the
    author given is empty, its body is the body given without white space at
    either end, and its id is an id no comment has.  Whether the task exists
    is not checked. *)
Theorem add_comment_appends (task_id : Z) (author body : string) (w : World) :
  exists c,
    result (add_comment task_id author body) w = Return tt /\
    task_comments (db (exec (add_comment task_id author body) w))
      = task_comments (db w) ++ [c] /\
    TaskComment.task_id c = task_id /\
    TaskComment.author c = (if decide (author = EmptyString) then "admin" else author) /\
    TaskComment.body c = strip body /\
    strip (TaskComment.body c) = TaskComment.body c /\
    (TaskComment.id c ∉ map TaskComment.id (task_comments (db w))) /\
    tasks (db (exec (add_comment task_id author body) w)) = tasks (db w) /\
    contacts (db (exec (add_comment task_id author body) w)) = contacts (db w) /\
    jobs (exec (add_comment task_id author body) w) = jobs w.
Proof.
  eexists. unfold result, exec, add_comment.
  cbv beta iota delta [try_finally bind SessionLocal close ret commit emit].
  cbn [fst snd db jobs task_comments tasks contacts with_task_comments
       TaskComment.id TaskComment.task_id TaskComment.author TaskComment.body].
  repeat split.
  - apply strip_idem.
  - apply next_id_fresh.
Qed.

(** ** Task creation *)

Lemma next_id_fresh_map {A} (m : gmap Z A) :
  m !! next_id (map fst (map_to_list m)) = None.
Proof.
  destruct (m !! next_id (map fst (map_to_list m))) as [x|] eqn:Hx; [|reflexivity].
  exfalso. apply (next_id_fresh (map fst (map_to_list m))).
  apply elem_of_map_to_list in Hx.
  apply list_elem_of_In, in_map_iff.
  eexists (_, x). split; [reflexivity | by apply list_elem_of_In].
Qed.

(** [create_task] stores a new task and schedules it: the task returned has
    an id no task had, status [open], title and description without white
    space at either end, and the first reminder at [start_date] and
    [start_time]; the other tasks are as before; exactly one job is stored
    under the new id, defined from the new task; and when the first reminder
    is not in the past, that job runs first at the first reminder. *)
Theorem create_task_schedules (title description : string) (assignee_id : Z)
    (priority : string) (due_date : option Z) (start_date start_time : Z)
    (freq_days remind_for_days : Z) (w : World) :
  exists t,
    result (create_task title description assignee_id priority due_date
              start_date start_time freq_days remind_for_days) w = Return t /\
    tasks (db w) !! Task.id t = None /\
    tasks (db (exec (create_task title description assignee_id priority due_date
                       start_date start_time freq_days remind_for_days) w))
      = <[Task.id t := t]> (tasks (db w)) /\
    Task.status t = "open" /\
    Task.title t = strip title /\
    Task.description t = strip description /\
    Task.assignee_id t = assignee_id /\
    Task.freq_days t = freq_days /\
    Task.remind_for_days t = remind_for_days /\
    instant (Task.start_at t) = start_date * usec_per_day + start_time /\
    instant <$> Task.due_at t = (fun d => d * usec_per_day + six_pm) <$> due_date /\
    APScheduler.lookup_job (job_id_for_task (Task.id t))
      (jobs (exec (create_task title description assignee_id priority due_date
                     start_date start_time freq_days remind_for_days) w))
      = Some (scheduled_job t (clock w)) /\
    APScheduler.count_jobs (job_id_for_task (Task.id t))
      (jobs (exec (create_task title description assignee_id priority due_date
                     start_date start_time freq_days remind_for_days) w)) = 1%nat /\
    (clock w <= start_date * usec_per_day + start_time ->
     APScheduler.next_run_time (scheduled_job t (clock w))
       = Some (start_date * usec_per_day + start_time)).
Proof.
  eexists. unfold result, exec, create_task.
  cbv beta iota zeta delta [try_finally bind SessionLocal close ret commit].
  rewrite schedule_task_run.
  cbn [fst snd db jobs clock tasks with_tasks stored_task stored_datetime combine
       replace_tzinfo instant Task.id Task.title Task.description Task.status
       Task.assignee_id Task.freq_days Task.remind_for_days Task.start_at Task.due_at].
  split; [reflexivity|].
  split; [apply next_id_fresh_map|].
  split; [reflexivity|].
  do 7 (split; [reflexivity|]).
  split; [by destruct due_date|].
  split; [apply lookup_job_app_new; [apply lookup_delete_rows | reflexivity]|].
  split.
  - rewrite count_jobs_app, count_delete_rows_eq, count_jobs_single.
    by rewrite decide_True.
  - intros Hnow. rewrite scheduled_job_next_run. cbv zeta.
    cbn [Task.start_at Task.freq_days Task.remind_for_days instant stored_task
         stored_datetime replace_tzinfo combine].
    assert (Hfi : first_index (Z.max 1 freq_days * usec_per_day)
                    (start_date * usec_per_day + start_time) (clock w) = 0).
    { unfold first_index.
      destruct (Z.ltb_spec (clock w) (start_date * usec_per_day + start_time));
        [reflexivity|].
      replace (clock w - (start_date * usec_per_day + start_time)) with 0 by lia.
      apply ceil_div_0. }
    rewrite Hfi, Z.mul_0_l, Z.add_0_r.
    pose proof usec_per_day_pos.
    rewrite (proj2 (Z.leb_le _ _)) by nia. reflexivity.
Qed.

Lemma create_task_schedules_witness :
  exists t,
    result (create_task " Call back " "soon" 1 "high" None 19723 (9 * 3600 * usec_per_second) 2 5)
      (Sample.world (Sample.task "open" 1 3) ∅ Sample.stale_jobs) = Return t
    /\ Task.id t = 8
    /\ APScheduler.next_run_time
         (scheduled_job t (Sample.jan1_0900 - 300 * usec_per_second))
       = Some (19723 * usec_per_day + 9 * 3600 * usec_per_second).
Proof.
  destruct (create_task_schedules " Call back " "soon" 1 "high" None 19723
              (9 * 3600 * usec_per_second) 2 5
              (Sample.world (Sample.task "open" 1 3) ∅ Sample.stale_jobs))
    as (t & Hres & _ & _ & _ & _ & _ & _ & _ & _ & _ & _ & _ & _ & Hnext).
  exists t. split; [exact Hres|]. split.
  - vm_compute in Hres. by injection Hres as <-.
  - apply Hnext. by vm_compute.
Defined.

(** ** Message templates *)

Lemma append_assoc (a b c : string) : (a +:+ b) +:+ c = a +:+ (b +:+ c).
Proof.
  induction a as [|x a IH]; [reflexivity|].
  change (String x ((a +:+ b) +:+ c) = String x (a +:+ (b +:+ c))). by rewrite IH.
Qed.

Lemma append_nil_r (a : string) : a +:+ EmptyString = a.
Proof.
  induction a as [|x a IH]; [reflexivity|].
  change (String x (a +:+ EmptyString) = String x a). by rewrite IH.
Qed.

Section FormatFacts.
Variables (rp : string -> string) (full : Result string) (kw : list (string * string)).

(** Text without braces is copied to the output. *)
Lemma format_go_text (lit rest out : string) :
  no_braces lit = true ->
  format_go rp full kw (lit +:+ rest) None out = format_go rp full kw rest None (out +:+ lit).
Proof.
  revert out. induction lit as [|c lit IH]; intros out Hlit.
  - by rewrite append_nil_r.
  - cbn [no_braces] in Hlit. apply andb_true_iff in Hlit as [Hc Hlit].
    unfold is_brace in Hc. apply negb_true_iff, orb_false_iff in Hc as [Ho Hcl].
    apply bool_decide_eq_false in Ho, Hcl.
    change (String c lit +:+ rest) with (String c (lit +:+ rest)). cbn [format_go].
    rewrite !decide_False by done.
    rewrite IH by done. unfold single. by rewrite append_assoc.
Qed.

(** Inside a field, the characters of a plain name are collected up to the
    closing brace. *)
Lemma format_go_name (n rest acc out : string) :
  plain_name_chars n = true ->
  format_go rp full kw (n +:+ String "}" rest) (Some acc) out =
  format_go rp full kw (String "}" rest) (Some (acc +:+ n)) out.
Proof.
  revert acc. induction n as [|c n IH]; intros acc Hn.
  - by rewrite append_nil_r.
  - cbn [plain_name_chars] in Hn.
    apply andb_true_iff in Hn as [[Hm Hc]%andb_true_iff Hn].
    apply negb_true_iff in Hm, Hc. apply bool_decide_eq_false in Hc.
    change (String c n +:+ String "}" rest) with (String c (n +:+ String "}" rest)).
    cbn [format_go]. rewrite decide_False by done. rewrite Hm.
    rewrite IH by done. unfold single. by rewrite append_assoc.
Qed.

(** An opening brace that is not doubled starts a field. *)
Lemma format_go_open (s out : string) (c : ascii) (r : string) :
  s = String c r -> c <> "{"%char ->
  format_go rp full kw (String "{" s) None out = format_go rp full kw s (Some EmptyString) out.
Proof.
  intros -> Hc. cbn [format_go]. rewrite decide_True by done. by rewrite decide_False by done.
Qed.

(** A field with a plain name is replaced by the keyword argument of that
    name, and raises [KeyError] when there is none. *)
Lemma format_go_field (name rest out : string) :
  plain_name name = true ->
  format_go rp full kw (String "{" (name +:+ String "}" rest)) None out =
  match lookup_kw kw name with
  | Some v => format_go rp full kw rest None (out +:+ v)
  | None => Raise (Exn "KeyError" (rp name))
  end.
Proof.
  unfold plain_name. intros [[Hne Hd]%andb_true_iff Hn]%andb_true_iff.
  apply negb_true_iff in Hne, Hd. apply bool_decide_eq_false in Hne.
  destruct name as [|c name]; [done|].
  pose proof Hn as Hn'. cbn [plain_name_chars] in Hn'.
  apply andb_true_iff in Hn' as [[Hm _]%andb_true_iff _].
  apply negb_true_iff in Hm.
  assert (Hc : c <> "{"%char).
  { intros ->. by vm_compute in Hm. }
  change (String c name +:+ String "}" rest) with (String c (name +:+ String "}" rest)).
  rewrite (format_go_open _ out c (name +:+ String "}" rest) eq_refl Hc).
  change (String c (name +:+ String "}" rest)) with (String c name +:+ String "}" rest).
  rewrite format_go_name by done.
  change (EmptyString +:+ String c name) with (String c name).
  cbn [format_go]. rewrite decide_True by done. rewrite decide_False by done.
  by rewrite Hd.
Qed.

End FormatFacts.

(** A template without braces is its own rendering. *)
Lemma format_plain_text env (template : string) (kw : list (string * string)) :
  no_braces template = true -> format env template kw = Return template.
Proof.
  intros Ht. unfold format.
  pose proof (format_go_text (repr env) (str_format env template kw) kw
                template EmptyString EmptyString Ht) as H.
  rewrite append_nil_r in H. exact H.
Qed.

(** One placeholder of a plain name between two texts without braces. *)
Lemma format_placeholder env (before name after : string) (kw : list (string * string)) :
  no_braces before = true ->
  plain_name name = true ->
  match lookup_kw kw name with
  | Some v =>
      no_braces after = true ->
      format env (before +:+ "{" +:+ name +:+ "}" +:+ after) kw
      = Return (before +:+ v +:+ after)
  | None =>
      format env (before +:+ "{" +:+ name +:+ "}" +:+ after) kw
      = Raise (Exn "KeyError" (repr env name))
  end.
Proof.
  intros Hb Hn. unfold format.
  change ("{" +:+ name +:+ "}" +:+ after) with (String "{" (name +:+ String "}" after)).
  rewrite format_go_text by done. rewrite format_go_field by done.
  destruct (lookup_kw kw name) as [v|]; [|reflexivity].
  intros Ha.
  pose proof (format_go_text (repr env)
                (str_format env (before +:+ String "{" (name +:+ String "}" after)) kw) kw
                after EmptyString ((EmptyString +:+ before) +:+ v) Ha) as H.
  rewrite append_nil_r in H. rewrite H. cbn [format_go append]. by rewrite append_assoc.
Qed.

Lemma render_message_format env (t : Task.t) (c : Contact.t) (template : string) (w : World) :
  settings (db w) !! "message_template" = Some template ->
  render_message env t (Some c) w = (format env template (render_kwargs env t c), w).
Proof.
  intros Hs. unfold render_message, bind, lift. rewrite get_setting_run, Hs. reflexivity.
Qed.

(** A stored template without braces is sent as it is: [render_message]
    returns the template itself, for every task and assignee. *)
Theorem render_message_plain_text (env : Env) (t : Task.t) (c : Contact.t)
    (template : string) (w : World) :
  settings (db w) !! "message_template" = Some template ->
  no_braces template = true ->
  result (render_message env t (Some c)) w = Return template.
Proof.
  intros Hs Ht. unfold result. rewrite (render_message_format env t c template w Hs).
  by apply format_plain_text.
Qed.

Lemma render_message_plain_text_witness :
  result (render_message Sample.env_up (Sample.task "open" 1 3) (Some Sample.alice))
    (Sample.world (Sample.task "open" 1 3) {[ "message_template" := "Any news?" ]} [])
  = Return "Any news?".
Proof.
  apply (render_message_plain_text Sample.env_up (Sample.task "open" 1 3) Sample.alice
           "Any news?"); by vm_compute.
Defined.

(** A stored template with one placeholder of a plain name between two texts
    without braces: a placeholder among [assignee_name], [title],
    [description], [due_date], [priority], [status] is replaced by its value
    (the description cut to 500 characters); any other name makes
    [render_message] raise [KeyError] with that name, whatever follows the
    placeholder. *)
Theorem render_message_placeholder (env : Env) (t : Task.t) (c : Contact.t)
    (before name after : string) (w : World) :
  settings (db w) !! "message_template"
    = Some (before +:+ "{" +:+ name +:+ "}" +:+ after) ->
  no_braces before = true ->
  plain_name name = true ->
  match lookup_kw (render_kwargs env t c) name with
  | Some v =>
      no_braces after = true ->
      result (render_message env t (Some c)) w = Return (before +:+ v +:+ after)
  | None =>
      (name ∉ ["assignee_name"; "title"; "description"; "due_date"; "priority"; "status"]) /\
      result (render_message env t (Some c)) w = Raise (Exn "KeyError" (repr env name))
  end.
Proof.
  intros Hs Hb Hn. unfold result. rewrite (render_message_format env t c _ w Hs). cbn [fst].
  pose proof (format_placeholder env before name after (render_kwargs env t c) Hb Hn) as H.
  destruct (lookup_kw (render_kwargs env t c) name) as [v|] eqn:Hl; [exact H|].
  split; [|exact H].
  intros Hin. unfold lookup_kw, render_kwargs in Hl. cbn [find fst] in Hl.
  repeat (apply elem_of_cons in Hin as [-> | Hin]; [by vm_compute in Hl|]).
  by apply elem_of_nil in Hin.
Qed.

Lemma render_message_placeholder_witness :
  result (render_message Sample.env_up (Sample.task "open" 1 3) (Some Sample.alice))
    (Sample.world (Sample.task "open" 1 3)
       {[ "message_template" := "Ping " +:+ "{" +:+ "title" +:+ "}" +:+ "!" ]} [])
  = Return "Ping Quarterly report!"
  /\ result (render_message Sample.env_up (Sample.task "open" 1 3) (Some Sample.alice))
       (Sample.world (Sample.task "open" 1 3)
          {[ "message_template" := "Ping " +:+ "{" +:+ "name" +:+ "}" +:+ " {" ]} [])
     = Raise (Exn "KeyError" "'name'").
Proof.
  split.
  - exact (render_message_placeholder Sample.env_up (Sample.task "open" 1 3) Sample.alice
             "Ping " "title" "!"
             (Sample.world (Sample.task "open" 1 3)
                {[ "message_template" := "Ping " +:+ "{" +:+ "title" +:+ "}" +:+ "!" ]} [])
             eq_refl eq_refl eq_refl eq_refl).
  - exact (proj2 (render_message_placeholder Sample.env_up (Sample.task "open" 1 3)
                    Sample.alice "Ping " "name" " {"
                    (Sample.world (Sample.task "open" 1 3)
                       {[ "message_template" := "Ping " +:+ "{" +:+ "name" +:+ "}" +:+ " {" ]} [])
                    eq_refl eq_refl eq_refl)).
Defined.

(** The message of the default template. *)
Lemma format_default_template env (name title due : string) kw :
  lookup_kw kw "assignee_name" = Some name ->
  lookup_kw kw "title" = Some title ->
  lookup_kw kw "due_date" = Some due ->
  format env DEFAULT_TEMPLATE kw =
  Return ("Hi " +:+ name +:+ ", what's the update on the task " +:+ dquote +:+ title
          +:+ dquote +:+ "? (Due: " +:+ due +:+ ")").
Proof.
  intros Hname Htitle Hdue. unfold format.
  change DEFAULT_TEMPLATE with
    ("Hi " +:+ String "{" ("assignee_name" +:+ String "}"
       ((", what's the update on the task " +:+ dquote) +:+ String "{" ("title" +:+ String "}"
          ((dquote +:+ "? (Due: ") +:+ String "{" ("due_date" +:+ String "}"
             (")" +:+ EmptyString))))))).
  rewrite format_go_text, format_go_field, Hname by reflexivity.
  rewrite format_go_text, format_go_field, Htitle by reflexivity.
  rewrite format_go_text, format_go_field, Hdue by reflexivity.
  rewrite format_go_text by reflexivity. cbn [format_go].
  f_equal. rewrite !append_assoc. reflexivity.
Qed.

Lemma render_message_default_run env (t : Task.t) (c : Contact.t) (w : World) :
  settings (db w) !! "message_template" = None \/
  settings (db w) !! "message_template" = Some DEFAULT_TEMPLATE ->
  render_message env t (Some c) w =
  (Return ("Hi " +:+ Contact.name c +:+ ", what's the update on the task " +:+ dquote
           +:+ Task.title t +:+ dquote +:+ "? (Due: "
           +:+ match Task.due_at t with Some d => strftime env d | None => "N/A" end
           +:+ ")"),
   w).
Proof.
  intros Hs. unfold render_message, bind, lift. rewrite get_setting_run.
  assert (Htpl : match settings (db w) !! "message_template" with
                 | Some v => v
                 | None => DEFAULT_TEMPLATE
                 end = DEFAULT_TEMPLATE) by (by destruct Hs as [-> | ->]).
  rewrite Htpl.
  by rewrite (format_default_template env (Contact.name c) (Task.title t)
                (match Task.due_at t with Some d => strftime env d | None => "N/A" end)).
Qed.

(** With the default template, set or left unset, rendering never fails for
    a task with an assignee: the message is the template with the name of the
    assignee, the title of the task and its due date (["N/A"] without one) in
    place. *)
Theorem render_message_default (env : Env) (t : Task.t) (c : Contact.t) (w : World) :
  settings (db w) !! "message_template" = None \/
  settings (db w) !! "message_template" = Some DEFAULT_TEMPLATE ->
  result (render_message env t (Some c)) w =
  Return ("Hi " +:+ Contact.name c +:+ ", what's the update on the task " +:+ dquote
          +:+ Task.title t +:+ dquote +:+ "? (Due: "
          +:+ match Task.due_at t with Some d => strftime env d | None => "N/A" end
          +:+ ")").
Proof.
  intros Hs. unfold result. by rewrite (render_message_default_run env t c w Hs).
Qed.

Lemma render_message_default_witness :
  result (render_message Sample.env_up (Sample.task "open" 1 3) (Some Sample.alice))
    (Sample.world (Sample.task "open" 1 3) ∅ [])
  = Return ("Hi Alice, what's the update on the task " +:+ dquote +:+ "Quarterly report"
            +:+ dquote +:+ "? (Due: N/A)").
Proof.
  rewrite (render_message_default Sample.env_up (Sample.task "open" 1 3) Sample.alice
             (Sample.world (Sample.task "open" 1 3) ∅ []));
    [reflexivity | left; by vm_compute].
Defined.

(** With the default template, a dispatch for an open task that has its
    assignee never raises, whatever the transport does: it returns a pair
    [(ok, info)], after exactly one POST to the chat id of the assignee. *)
Theorem send_task_ping_default_template (env : Env) (task_id : Z) (t : Task.t)
    (c : Contact.t) (w : World) :
  tasks (db w) !! task_id = Some t ->
  closed (Task.status t) = false ->
  find (fun c => bool_decide (Contact.id c = Task.assignee_id t)) (contacts (db w)) = Some c ->
  settings (db w) !! "message_template" = None \/
  settings (db w) !! "message_template" = Some DEFAULT_TEMPLATE ->
  exists ok info msg,
    result (_send_task_ping env task_id) w = Return (ok, info) /\
    posts (trace (exec (_send_task_ping env task_id) w))
      = posts (trace w) ++ [(Contact.chat_id c, msg)] /\
    jobs (exec (_send_task_ping env task_id) w) = jobs w.
Proof.
  intros Ht Hc Ha Hs.
  pose proof (send_task_ping_open_run env task_id t w Ht Hc) as Hrun.
  cbv zeta in Hrun. rewrite Ha in Hrun.
  assert (Hr : result (render_message env t (Some c)) w
               = Return ("Hi " +:+ Contact.name c +:+ ", what's the update on the task "
                         +:+ dquote +:+ Task.title t +:+ dquote +:+ "? (Due: "
                         +:+ match Task.due_at t with
                             | Some d => strftime env d
                             | None => "N/A"
                             end
                         +:+ ")"))
    by (unfold result; by rewrite (render_message_default_run env t c w Hs)).
  rewrite Hr in Hrun. unfold result at 1, exec at 1 2.
  destruct (result (api_send_text env (Contact.chat_id c) _) w) as [resp|e];
    rewrite Hrun; cbn [fst snd]; rewrite api_send_text_world; cbn [trace jobs];
    eexists _, _, _; (split; [reflexivity|]); (split; [|reflexivity]);
    unfold posts; by rewrite omap_app.
Qed.

Lemma send_task_ping_default_template_witness :
  exists ok info msg,
    result (_send_task_ping Sample.env_busy 7)
      (Sample.world (Sample.task "open" 1 3) ∅ []) = Return (ok, info) /\
    posts (trace (exec (_send_task_ping Sample.env_busy 7)
                    (Sample.world (Sample.task "open" 1 3) ∅ [])))
      = posts (trace (Sample.world (Sample.task "open" 1 3) ∅ []))
        ++ [(Contact.chat_id Sample.alice, msg)] /\
    jobs (exec (_send_task_ping Sample.env_busy 7)
            (Sample.world (Sample.task "open" 1 3) ∅ [])) = [].
Proof.
  apply (send_task_ping_default_template Sample.env_busy 7 (Sample.task "open" 1 3)
           Sample.alice (Sample.world (Sample.task "open" 1 3) ∅ []));
    [by vm_compute | by vm_compute | by vm_compute | by left].
Defined.
